(** * plott: column classification and progressive animation frames

    A shallow embedding of the data logic of [pltt.py]: the column
    analysis of lines 88-100 (numeric and datetime column detection with
    the best-effort text-to-datetime conversion) and the construction of
    [plot_ready_df] of lines 169-190 (pass-through of a chosen animation
    column, or the cumulative frames tagged by [animation_frame]).

    The script works on a pandas [DataFrame].  The part of pandas it uses
    is modelled here: a frame is a row index together with an ordered list
    of labelled columns, each column carrying its dtype and its cells.
    What the script does not determine of its two library calls is taken
    as parameters: the timestamp parser behind [pd.to_datetime] with the
    dtype of the column it gives back, and the permutation computed by
    [sort_values].  The sort [sort_values] runs by default, numpy's
    quicksort, is modelled as well. *)

From Stdlib Require Import List ZArith Ascii String Bool Lia Arith.
From Stdlib Require Import Permutation Sorted.
From Stdlib Require Import Floats.SpecFloat.
Import ListNotations.
Local Open Scope string_scope.
Local Open Scope list_scope.

(** ** Cells, dtypes, columns and frames *)

Inductive Width := W8 | W16 | W32 | W64.

Inductive Dtype :=
| DInt (signed : bool) (w : Width)
| DFloat (w : Width)
| DBool
| DDatetime64 (tz : option string)
| DObject.

Definition int64 : Dtype := DInt true W64.
Definition float64 : Dtype := DFloat W64.

Inductive Timestamp :=
| NaT
| Ts (ns : Z).

Inductive Cell :=
| CInt (z : Z)
| CFloat (f : spec_float)
| CBool (b : bool)
| CStr (s : string)
| CTime (t : Timestamp)
| CNone.

Record Series := mkSeries { dtype : Dtype; values : list Cell }.

Record DataFrame := mkDF { index : list Z; data : list (string * Series) }.

(** [pd.DataFrame()] *)
Definition empty_df : DataFrame := mkDF [] [].

(** [df.columns] and [len(df)] *)
Definition columns (df : DataFrame) : list string := map fst (data df).
Definition len (df : DataFrame) : nat := List.length (index df).

Definition width_eqb (a b : Width) : bool :=
  match a, b with
  | W8, W8 | W16, W16 | W32, W32 | W64, W64 => true
  | _, _ => false
  end.

Definition tz_eqb (a b : option string) : bool :=
  match a, b with
  | None, None => true
  | Some x, Some y => String.eqb x y
  | _, _ => false
  end.

Definition dtype_eqb (a b : Dtype) : bool :=
  match a, b with
  | DInt s1 w1, DInt s2 w2 => Bool.eqb s1 s2 && width_eqb w1 w2
  | DFloat w1, DFloat w2 => width_eqb w1 w2
  | DBool, DBool => true
  | DDatetime64 t1, DDatetime64 t2 => tz_eqb t1 t2
  | DObject, DObject => true
  | _, _ => false
  end.

(** What a cell of a column of the given dtype can be: a typed column
    holds values of its type only, an object column holds anything. *)
Definition cell_has_dtype (d : Dtype) (c : Cell) : bool :=
  match d, c with
  | DInt _ _, CInt _ => true
  | DFloat _, CFloat _ => true
  | DBool, CBool _ => true
  | DDatetime64 _, CTime _ => true
  | DObject, _ => true
  | _, _ => false
  end.

Definition cell_is_numeric (c : Cell) : bool :=
  match c with
  | CInt _ | CFloat _ => true
  | _ => false
  end.

Definition is_integer_or_float (d : Dtype) : bool :=
  match d with
  | DInt _ _ | DFloat _ => true
  | _ => false
  end.

Definition well_typed (s : Series) : Prop :=
  forallb (cell_has_dtype (dtype s)) (values s) = true.

(** The shape of a frame: unique column labels (as [read_excel] produces
    them) and every column as long as the index. *)
Definition aligned (df : DataFrame) : Prop :=
  NoDup (columns df) /\
  Forall (fun cs => List.length (values (snd cs)) = len df) (data df).

(** A well-formed frame: aligned, and every column holds cells of its
    dtype. *)
Definition wf_df (df : DataFrame) : Prop :=
  aligned df /\ Forall (fun cs => well_typed (snd cs)) (data df).

(** Failure of a frame operation: the [KeyError] of a missing label. *)
Inductive Result (A : Type) : Type :=
| Ok (a : A)
| KeyError (label : string).
Arguments Ok {A} a.
Arguments KeyError {A} label.

Definition bind {A B : Type} (r : Result A) (k : A -> Result B) : Result B :=
  match r with
  | Ok a => k a
  | KeyError label => KeyError label
  end.

Notation "x <- r ;; k" := (bind r (fun x => k))
  (at level 61, r at next level, right associativity).

(** [df[col]]; [None] stands for the [KeyError] of a missing label. *)
Fixpoint lookup (col : string) (l : list (string * Series)) : option Series :=
  match l with
  | [] => None
  | (c, s) :: rest => if String.eqb col c then Some s else lookup col rest
  end.

Definition getitem (df : DataFrame) (col : string) : option Series :=
  lookup col (data df).

(** [df[col] = s]: replaces the column of that label, or appends a new
    last column when the label is new. *)
Fixpoint assoc_set (col : string) (s : Series) (l : list (string * Series))
  : list (string * Series) :=
  match l with
  | [] => [(col, s)]
  | (c, s0) :: rest =>
      if String.eqb col c then (c, s) :: rest else (c, s0) :: assoc_set col s rest
  end.

Definition setitem (df : DataFrame) (col : string) (s : Series) : DataFrame :=
  mkDF (index df) (assoc_set col s (data df)).

(** ** Column analysis (lines 88-100) *)

(** [df.select_dtypes(include=...)]: the columns whose dtype is one of
    the listed ones, in frame order. *)
Definition select_dtypes (include : list Dtype) (df : DataFrame) : DataFrame :=
  mkDF (index df)
       (filter (fun cs => existsb (dtype_eqb (dtype (snd cs))) include) (data df)).

(** [pd.api.types.is_datetime64_any_dtype]: naive or timezone-aware. *)
Definition is_datetime64_any_dtype (s : Series) : bool :=
  match dtype s with
  | DDatetime64 _ => true
  | _ => false
  end.

Definition is_datetime_col (df : DataFrame) (col : string) : bool :=
  match getitem df col with
  | Some s => is_datetime64_any_dtype s
  | None => false
  end.

(** Line 88. *)
Definition numeric_cols (df : DataFrame) : list string :=
  columns (select_dtypes [float64; int64] df).

(** Line 89. *)
Definition native_datetime_cols (df : DataFrame) : list string :=
  filter (is_datetime_col df) (columns df).

(** All-or-nothing traversal: the first failure aborts the whole list. *)
Fixpoint traverse {A B : Type} (f : A -> option B) (l : list A) : option (list B) :=
  match l with
  | [] => Some []
  | a :: rest =>
      match f a with
      | None => None
      | Some b =>
          match traverse f rest with
          | None => None
          | Some bs => Some (b :: bs)
          end
      end
  end.

Record Classification := mkClassification {
  cl_df : DataFrame;
  cl_numeric_cols : list string;
  cl_datetime_cols : list string
}.

(** What [pd.to_datetime] gives back for a column it accepts: a naive
    [datetime64[ns]] column, a timezone-aware [datetime64[ns, tz]] column
    when the values carry one common UTC offset, or (pandas before 3.0,
    values of different offsets) an [object] column of datetime
    objects. *)
Inductive Converted :=
| AsNaive
| AsAware (tz : string)
| AsObject.

Definition converted_dtype (k : Converted) : Dtype :=
  match k with
  | AsNaive => DDatetime64 None
  | AsAware tz => DDatetime64 (Some tz)
  | AsObject => DObject
  end.

Section Classifier.

(** The timestamp parser of [pd.to_datetime]: [parse_ts col v] is what
    the value [v] parses to as a value of the column [col] (the format
    may be inferred from the column); [None] is a value the parser
    rejects. *)
Variable parse_ts : list Cell -> Cell -> option Timestamp.

(** The kind of column [pd.to_datetime] returns for the values of a
    column it accepts. *)
Variable result_kind : list Cell -> Converted.

(** [pd.to_datetime(df[col])] with the default [errors='raise']: the
    column of the parsed values when every value parses, of the dtype
    pandas chooses for it, and an exception ([None]) as soon as one value
    does not parse. *)
Definition to_datetime (s : Series) : option Series :=
  match traverse (parse_ts (values s)) (values s) with
  | Some ts => Some (mkSeries (converted_dtype (result_kind (values s))) (map CTime ts))
  | None => None
  end.

(** One turn of the loop of lines 92-100 on the state
    [(df, datetime_cols)]. *)
Definition coerce_step (st : DataFrame * list string) (col : string)
  : DataFrame * list string :=
  let '(df, datetime_cols) := st in
  match getitem df col with
  | Some s =>
      if dtype_eqb (dtype s) DObject then
        match to_datetime s with
        | Some test_conversion =>
            (setitem df col test_conversion, datetime_cols ++ [col])
        | None => (df, datetime_cols)
        end
      else (df, datetime_cols)
  | None => (df, datetime_cols)
  end.

(** Lines 88-100: the frame after the analysis (columns may have been
    converted in place) and the two column lists. *)
Definition classify (df : DataFrame) : Classification :=
  let numeric := numeric_cols df in
  let datetime_cols := native_datetime_cols df in
  let '(df', datetime_cols') :=
    match datetime_cols with
    | [] => fold_left coerce_step (columns df) (df, datetime_cols)
    | _ :: _ => (df, datetime_cols)
    end in
  mkClassification df' numeric datetime_cols'.

End Classifier.

(** ** Frame construction (lines 169-190) *)

(** [np.arange(start, stop)] on integers: [start, ..., stop - 1]. *)
Definition arange (start stop : Z) : list Z :=
  map (fun i => (start + Z.of_nat i)%Z) (seq 0 (Z.to_nat (stop - start))).

(** Number of rows kept by [head(n)] on [total] rows: the first [n], or
    all but the last [-n] when [n] is negative. *)
Definition head_count (n : Z) (total : nat) : nat :=
  if (0 <=? n)%Z then Z.to_nat n else Z.to_nat (Z.of_nat total + n).

Definition series_firstn (k : nat) (s : Series) : Series :=
  mkSeries (dtype s) (firstn k (values s)).

(** [df.head(n)] (the [.copy()] that follows is the identity on values). *)
Definition head (n : Z) (df : DataFrame) : DataFrame :=
  let k := head_count n (len df) in
  mkDF (firstn k (index df)) (map (fun cs => (fst cs, series_firstn k (snd cs))) (data df)).

(** [df[col] = i] for an integer scalar: broadcast over the rows. *)
Definition assign_scalar (df : DataFrame) (col : string) (i : Z) : DataFrame :=
  setitem df col (mkSeries int64 (repeat (CInt i) (len df))).

(** A frame with neither rows nor columns: [pd.concat] drops such
    operands before concatenating. *)
Definition no_shape (df : DataFrame) : bool :=
  match index df, data df with
  | [], [] => true
  | _, _ => false
  end.

Definition nan : Cell := CFloat S754_nan.

(** A column of one operand of [pd.concat]; an operand without that label
    contributes missing values. *)
Definition column_or_missing (df : DataFrame) (col : string) : Series :=
  match getitem df col with
  | Some s => s
  | None => mkSeries float64 (repeat nan (len df))
  end.

(** Two blocks of one column, one under the other.  Blocks of one dtype
    keep it; the numeric promotions pandas applies to blocks of different
    dtypes are not modelled (they do not occur below: every frame of the
    animation has the dtypes of [df]) and are rendered as [object]. *)
Definition series_concat (a b : Series) : Series :=
  mkSeries (if dtype_eqb (dtype a) (dtype b) then dtype a else DObject)
           (values a ++ values b).

Definition mem (col : string) (l : list string) : bool :=
  existsb (String.eqb col) l.

(** [pd.concat([a, b])]: rows of [a] then rows of [b], over the union of
    the column labels (those of [a] first), indexes kept. *)
Definition concat (a b : DataFrame) : DataFrame :=
  if no_shape a then b
  else if no_shape b then a
  else
    let labels := columns a ++ filter (fun c => negb (mem c (columns a))) (columns b) in
    mkDF (index a ++ index b)
         (map (fun c => (c, series_concat (column_or_missing a c) (column_or_missing b c)))
              labels).

(** Rows picked by position. *)
Definition take {A : Type} (d : A) (idx : list nat) (l : list A) : list A :=
  map (fun i => nth i l d) idx.

Definition series_take (idx : list nat) (s : Series) : Series :=
  mkSeries (dtype s) (take CNone idx (values s)).

Definition df_take (idx : list nat) (df : DataFrame) : DataFrame :=
  mkDF (take 0%Z idx (index df))
       (map (fun cs => (fst cs, series_take idx (snd cs))) (data df)).

Definition cell_ts (c : Cell) : Timestamp :=
  match c with
  | CTime t => t
  | _ => NaT
  end.

(** The sort keys of a datetime column. *)
Definition datetime_keys (s : Series) : list Timestamp := map cell_ts (values s).

Definition animation_frame_col : string := "animation_frame".

Section FrameBuilder.

(** The permutation [sort_values] applies: position [j] of the result
    holds the row that was at position [argsort keys !! j].  The script
    leaves [kind] at its default. *)
Variable argsort : list Timestamp -> list nat.

(** [df.sort_values(by=col)] for a datetime column. *)
Definition sort_values (df : DataFrame) (col : string) : Result DataFrame :=
  match getitem df col with
  | Some s => Ok (df_take (argsort (datetime_keys s)) df)
  | None => KeyError col
  end.

(** Lines 175-177: the frame the prefixes are taken from. *)
Definition ordered_df (df : DataFrame) (x_col : string) : Result DataFrame :=
  match getitem df x_col with
  | Some x => if is_datetime64_any_dtype x then sort_values df x_col else Ok df
  | None => KeyError x_col
  end.

(** Line 186-187: the frame [dfa] of step [i]. *)
Definition dfa (df : DataFrame) (i : Z) : DataFrame :=
  assign_scalar (head i df) animation_frame_col i.

(** Lines 180-188. *)
Definition expand (df : DataFrame) (start_point : Z) : DataFrame :=
  let start := start_point in
  let obs := Z.of_nat (len df) in
  fold_left (fun plot_ready_df i => concat plot_ready_df (dfa df i))
            (arange start (obs + 1)) empty_df.

(** Lines 169-190: [(plot_ready_df, animation_col)]. *)
Definition plot_ready (df : DataFrame) (x_col animation_frame : string)
  (start_point : Z) : Result (DataFrame * string) :=
  if negb (String.eqb animation_frame "None") then
    Ok (df, animation_frame)
  else
    df' <- ordered_df df x_col ;;
    Ok (expand df' start_point, animation_frame_col).

End FrameBuilder.

(** ** Observations on frames used to state the properties *)

(** The range the slider of lines 149-154 offers for [start_point]. *)
Definition slider_range (df : DataFrame) (start_point : Z) : Prop :=
  (5 <= start_point <= Z.max 10 (Z.of_nat (len df) - 1))%Z.

Definition is_frame (k : Z) (c : Cell) : bool :=
  match c with
  | CInt z => (z =? k)%Z
  | _ => false
  end.

(** Elements kept by a boolean mask. *)
Fixpoint select {A : Type} (mask : list bool) (l : list A) : list A :=
  match mask, l with
  | m :: mask', a :: l' => if m then a :: select mask' l' else select mask' l'
  | _, _ => []
  end.

Definition frame_mask (k : Z) (df : DataFrame) : list bool :=
  match getitem df animation_frame_col with
  | Some s => map (is_frame k) (values s)
  | None => []
  end.

(** [df[df['animation_frame'] == k]]: the rows the renderer shows at
    step [k]. *)
Definition rows_of_frame (k : Z) (df : DataFrame) : DataFrame :=
  let m := frame_mask k df in
  mkDF (select m (index df))
       (map (fun cs => (fst cs, mkSeries (dtype (snd cs)) (select m (values (snd cs)))))
            (data df)).

(** The cells of a column, none for a missing label. *)
Definition cells (df : DataFrame) (col : string) : list Cell :=
  match getitem df col with
  | Some s => values s
  | None => []
  end.

Definition sum_Z (l : list Z) : Z := fold_right Z.add 0%Z l.

(** Ascending order of timestamps, missing values ([NaT]) last. *)
Definition ts_leb (a b : Timestamp) : bool :=
  match a, b with
  | _, NaT => true
  | NaT, Ts _ => false
  | Ts x, Ts y => (x <=? y)%Z
  end.

Definition ts_eqb (a b : Timestamp) : bool :=
  match a, b with
  | NaT, NaT => true
  | Ts x, Ts y => (x =? y)%Z
  | _, _ => false
  end.



(** Tie order of a permutation: rows of equal key keep their relative
    position (what a stable sort adds to [argsort_ok]). *)
Fixpoint ties_in_order (ks : list Timestamp) (perm : list nat) : bool :=
  match perm with
  | [] => true
  | p :: rest =>
      forallb (fun q => negb (ts_eqb (nth p ks NaT) (nth q ks NaT)) || Nat.ltb p q) rest
      && ties_in_order ks rest
  end.

(** ** A sort that meets [argsort_ok] *)

Fixpoint insert_by {A : Type} (before : A -> A -> bool) (x : A) (l : list A) : list A :=
  match l with
  | [] => [x]
  | y :: rest => if before x y then x :: l else y :: insert_by before x rest
  end.

Definition isort {A : Type} (before : A -> A -> bool) (l : list A) : list A :=
  fold_right (insert_by before) [] l.

Definition keyed (ks : list Timestamp) : list (Timestamp * nat) :=
  combine ks (seq 0 (List.length ks)).

(** Insertion sort that keeps equal keys in their original order. *)
Definition argsort_stable (ks : list Timestamp) : list nat :=
  map snd (isort (fun a b => ts_leb (fst a) (fst b)) (keyed ks)).

(** ** The sort [sort_values] runs by default

    Line 177 leaves [kind] at ['quicksort'].  pandas ([nargsort]) sets
    the missing dates aside, asks numpy for the [argsort] of the others
    and puts the missing ones last.  For datetime64 numpy's [argsort] is
    [aquicksort_] of [npysort/quicksort.cpp]: an in-place quicksort of the
    array [tosort] of row positions, with the median of three as pivot,
    an insertion sort for the ranges of at most 17 positions, and
    [aheapsort_] of [npysort/heapsort.cpp] for a range reached after the
    depth limit is used up.  Positions are offsets into [tosort]. *)

Definition SMALL_QUICKSORT : Z := 16.

(** [v[i]], [tosort[p]] and the assignment [tosort[p] = x]. *)
Definition key_of (v : list Z) (i : nat) : Z := nth i v 0%Z.

Definition at_pos (tosort : list nat) (p : Z) : nat := nth (Z.to_nat p) tosort 0%nat.

Fixpoint set_nth (n : nat) (x : nat) (l : list nat) : list nat :=
  match l, n with
  | [], _ => []
  | _ :: rest, O => x :: rest
  | y :: rest, S n' => y :: set_nth n' x rest
  end.

Definition put (tosort : list nat) (p : Z) (x : nat) : list nat :=
  set_nth (Z.to_nat p) x tosort.

Definition INTP_SWAP (tosort : list nat) (p q : Z) : list nat :=
  put (put tosort p (at_pos tosort q)) q (at_pos tosort p).

(** [Tag::less(v[i], v[j])] on dates that are not missing. *)
Definition less (v : list Z) (i j : nat) : bool := (key_of v i <? key_of v j)%Z.

(** [do ++pi; while (less(v[*pi], vp))] and
    [do --pj; while (less(vp, v[*pj]))]. *)
Fixpoint scan_up (fuel : nat) (v : list Z) (tosort : list nat) (vp pi : Z) : Z :=
  match fuel with
  | O => pi
  | S fuel' =>
      let pi := (pi + 1)%Z in
      if (key_of v (at_pos tosort pi) <? vp)%Z then scan_up fuel' v tosort vp pi else pi
  end.

Fixpoint scan_down (fuel : nat) (v : list Z) (tosort : list nat) (vp pj : Z) : Z :=
  match fuel with
  | O => pj
  | S fuel' =>
      let pj := (pj - 1)%Z in
      if (vp <? key_of v (at_pos tosort pj))%Z then scan_down fuel' v tosort vp pj else pj
  end.

(** The loop [for (;;)] of the partition: the two scans, then the swap
    unless the positions have met. *)
Fixpoint partition_loop (fuel : nat) (v : list Z) (tosort : list nat) (vp pi pj : Z)
  : list nat * Z :=
  match fuel with
  | O => (tosort, pi)
  | S fuel' =>
      let pi := scan_up (List.length tosort) v tosort vp pi in
      let pj := scan_down (List.length tosort) v tosort vp pj in
      if (pi >=? pj)%Z then (tosort, pi)
      else partition_loop fuel' v (INTP_SWAP tosort pi pj) vp pi pj
  end.

(** One partition of the range [pl .. pr]: the median of three goes to
    [pr - 1] as pivot, the range is partitioned and the pivot is put at
    its place [pi], which is returned. *)
Definition partition (v : list Z) (tosort : list nat) (pl pr : Z) : list nat * Z :=
  let pm := (pl + Z.shiftr (pr - pl) 1)%Z in
  let tosort :=
    if less v (at_pos tosort pm) (at_pos tosort pl) then INTP_SWAP tosort pm pl else tosort in
  let tosort :=
    if less v (at_pos tosort pr) (at_pos tosort pm) then INTP_SWAP tosort pr pm else tosort in
  let tosort :=
    if less v (at_pos tosort pm) (at_pos tosort pl) then INTP_SWAP tosort pm pl else tosort in
  let vp := key_of v (at_pos tosort pm) in
  let pi := pl in
  let pj := (pr - 1)%Z in
  let tosort := INTP_SWAP tosort pm pj in
  let '(tosort, pi) := partition_loop (List.length tosort) v tosort vp pi pj in
  let pk := (pr - 1)%Z in
  (INTP_SWAP tosort pi pk, pi).

(** The state of the sort: the array, the current range, the depth left
    and the stack of the ranges put aside, each with its depth. *)
Record QuickState := mkQuickState {
  qs_tosort : list nat;
  qs_pl : Z;
  qs_pr : Z;
  qs_cdepth : Z;
  qs_stack : list (Z * Z * Z)
}.

(** [while ((pr - pl) > SMALL_QUICKSORT)]: partition, put the larger
    part on the stack and go on with the smaller one. *)
Fixpoint partition_phase (fuel : nat) (v : list Z) (st : QuickState) : QuickState :=
  match fuel with
  | O => st
  | S fuel' =>
      let pl := qs_pl st in
      let pr := qs_pr st in
      if (pr - pl >? SMALL_QUICKSORT)%Z then
        let '(tosort, pi) := partition v (qs_tosort st) pl pr in
        let cdepth := (qs_cdepth st - 1)%Z in
        if (pi - pl <? pr - pi)%Z then
          partition_phase fuel' v
            (mkQuickState tosort pl (pi - 1) cdepth ((pi + 1, pr, cdepth)%Z :: qs_stack st))
        else
          partition_phase fuel' v
            (mkQuickState tosort (pi + 1) pr cdepth ((pl, pi - 1, cdepth)%Z :: qs_stack st))
      else st
  end.

(** The insertion sort of the range [pl .. pr]: a position moves down
    past the positions of strictly greater key only. *)
Fixpoint shift_down (fuel : nat) (v : list Z) (tosort : list nat) (vp pl pj : Z)
  : list nat * Z :=
  match fuel with
  | O => (tosort, pj)
  | S fuel' =>
      let pk := (pj - 1)%Z in
      if (pl <? pj)%Z && (vp <? key_of v (at_pos tosort pk))%Z then
        shift_down fuel' v (put tosort pj (at_pos tosort pk)) vp pl pk
      else (tosort, pj)
  end.

Definition insert_position (v : list Z) (pl : Z) (tosort : list nat) (pi : Z) : list nat :=
  let vi := at_pos tosort pi in
  let vp := key_of v vi in
  let '(tosort, pj) := shift_down (List.length tosort) v tosort vp pl pi in
  put tosort pj vi.

Definition insertion_sort (v : list Z) (tosort : list nat) (pl pr : Z) : list nat :=
  fold_left (insert_position v pl) (arange (pl + 1) (pr + 1)) tosort.

(** [aheapsort_] on the [n] positions from [pl]; [a[i]] is
    [tosort[pl - 1 + i]]. *)
Fixpoint sift (fuel : nat) (v : list Z) (tosort : list nat) (base : Z) (tmp : nat)
  (i j n : Z) : list nat * Z :=
  match fuel with
  | O => (tosort, i)
  | S fuel' =>
      if (j <=? n)%Z then
        let j :=
          if (j <? n)%Z && less v (at_pos tosort (base + j)) (at_pos tosort (base + j + 1))
          then (j + 1)%Z else j in
        if less v tmp (at_pos tosort (base + j)) then
          sift fuel' v (put tosort (base + i) (at_pos tosort (base + j))) base tmp j (j + j) n
        else (tosort, i)
      else (tosort, i)
  end.

Definition sift_in (v : list Z) (base : Z) (tmp : nat) (i j n : Z) (tosort : list nat)
  : list nat :=
  let '(tosort, i) := sift (List.length tosort) v tosort base tmp i j n in
  put tosort (base + i)%Z tmp.

Definition aheapsort (v : list Z) (tosort : list nat) (pl n : Z) : list nat :=
  let base := (pl - 1)%Z in
  let tosort :=
    fold_left (fun t l => sift_in v base (at_pos t (base + l)) l (Z.shiftl l 1) n t)
              (rev (arange 1 (Z.shiftr n 1 + 1))) tosort in
  fold_left (fun t m =>
               let tmp := at_pos t (base + m) in
               let t := put t (base + m) (at_pos t (base + 1)) in
               sift_in v base tmp 1 2 (m - 1) t)
            (rev (arange 2 (n + 1))) tosort.

(** The loop [while (1)]: heap sort or partitions and insertion sort
    for the current range, then the next range of the stack. *)
Fixpoint aquicksort_loop (fuel : nat) (v : list Z) (st : QuickState) : list nat :=
  match fuel with
  | O => qs_tosort st
  | S fuel' =>
      let '(tosort, stack) :=
        if (qs_cdepth st <? 0)%Z then
          (aheapsort v (qs_tosort st) (qs_pl st) (qs_pr st - qs_pl st + 1), qs_stack st)
        else
          let st := partition_phase (List.length (qs_tosort st)) v st in
          (insertion_sort v (qs_tosort st) (qs_pl st) (qs_pr st), qs_stack st) in
      match stack with
      | [] => tosort
      | (pl, pr, cdepth) :: stack =>
          aquicksort_loop fuel' v (mkQuickState tosort pl pr cdepth stack)
      end
  end.

(** [non_nans.argsort(kind='quicksort')]: the sort starts from the
    positions in order, with depth limit [2 * floor(log2(num))]. *)
Definition aquicksort (v : list Z) : list nat :=
  let num := List.length v in
  aquicksort_loop (S num) v
    (mkQuickState (seq 0 num) 0 (Z.of_nat num - 1) (Z.log2 (Z.of_nat num) * 2) []).

Definition is_NaT (t : Timestamp) : bool :=
  match t with
  | NaT => true
  | Ts _ => false
  end.

(** [nargsort(k, kind='quicksort', ascending=True, na_position='last')]. *)
Definition nargsort (keys : list Timestamp) : list nat :=
  let idx := seq 0 (List.length keys) in
  let mask i := is_NaT (nth i keys NaT) in
  let non_nans := flat_map (fun t => match t with Ts ns => [ns] | NaT => [] end) keys in
  let non_nan_idx := filter (fun i => negb (mask i)) idx in
  let nan_idx := filter mask idx in
  map (fun j => nth j non_nan_idx 0%nat) (aquicksort non_nans) ++ nan_idx.

(** ** Sample data *)

Definition is_digit (a : Ascii.ascii) : bool :=
  Nat.leb 48 (Ascii.nat_of_ascii a) && Nat.leb (Ascii.nat_of_ascii a) 57.

Definition digit (a : Ascii.ascii) : Z := Z.of_nat (Ascii.nat_of_ascii a - 48).

(** A date [YYYY-MM-DD], read as the number [YYYYMMDD]. *)
Definition date_number (cs : list ascii) : option Z :=
  match cs with
  | [y1; y2; y3; y4; "-"%char; m1; m2; "-"%char; d1; d2] =>
      if forallb is_digit [y1; y2; y3; y4; m1; m2; d1; d2] then
        Some (fold_left (fun acc a => acc * 10 + digit a)
                        [y1; y2; y3; y4; m1; m2; d1; d2] 0)%Z
      else None
  | _ => None
  end.

(** The UTC offset of a time of day [Thh:mm:ss+HH:MM]. *)
Definition offset_text (cs : list ascii) : option string :=
  match cs with
  | ["T"%char; h1; h2; ":"%char; n1; n2; ":"%char; s1; s2; sign; o1; o2; ":"%char; o3; o4] =>
      if forallb is_digit [h1; h2; n1; n2; s1; s2; o1; o2; o3; o4]
         && (Ascii.eqb sign "+" || Ascii.eqb sign "-") then
        Some (string_of_list_ascii [sign; o1; o2; ":"%char; o3; o4])
      else None
  | _ => None
  end.

(** The date of a text and its UTC offset, if it has one. *)
Definition split_date (s : string) : option (Z * option string) :=
  let cs := list_ascii_of_string s in
  match date_number (firstn 10 cs), skipn 10 cs with
  | Some d, [] => Some (d, None)
  | Some d, rest =>
      match offset_text rest with
      | Some tz => Some (d, Some tz)
      | None => None
      end
  | None, _ => None
  end.

(** A parser for the examples: it accepts [YYYY-MM-DD], with or without
    a time of day and UTC offset, and missing or already converted
    values, and reads the date as the number [YYYYMMDD]. *)
Definition sample_parser (c : Cell) : option Timestamp :=
  match c with
  | CStr s =>
      match split_date s with
      | Some (d, _) => Some (Ts d)
      | None => None
      end
  | CTime t => Some t
  | CNone => Some NaT
  | _ => None
  end.

(** The UTC offsets of the texts of a column. *)
Definition offsets (col : list Cell) : list (option string) :=
  flat_map (fun c => match c with
                     | CStr s => match split_date s with
                                 | Some (_, tz) => [tz]
                                 | None => []
                                 end
                     | _ => []
                     end) col.

Definition mixes_naive_and_aware (col : list Cell) : bool :=
  existsb (tz_eqb None) (offsets col)
  && existsb (fun tz => negb (tz_eqb None tz)) (offsets col).

(** The sample parser on a column: every value by itself, a column that
    has texts with and without offset being rejected. *)
Definition sample_parse (col : list Cell) (c : Cell) : option Timestamp :=
  if mixes_naive_and_aware col then None else sample_parser c.

(** The kind of the converted column: naive without offsets, aware when
    there is one offset for all, object when the offsets differ. *)
Definition sample_kind (col : list Cell) : Converted :=
  match offsets col with
  | [] => AsNaive
  | None :: _ => AsNaive
  | Some tz :: rest =>
      if forallb (tz_eqb (Some tz)) rest then AsAware tz else AsObject
  end.

Definition range_index (n : nat) : list Z := map Z.of_nat (seq 0 n).

(** Three rows: a text column of dates, a text column with one value
    that is no date, and an integer column. *)
Definition df_text : DataFrame :=
  mkDF (range_index 3)
       [("when", mkSeries DObject [CStr "2020-01-03"; CStr "2020-01-01"; CStr "2020-01-02"]);
        ("note", mkSeries DObject [CStr "2020-01-01"; CStr "not-a-date"; CStr "2020-01-05"]);
        ("y", mkSeries int64 [CInt 3; CInt 1; CInt 2])].

(** The same rows with the date column already a datetime column. *)
Definition df_dates : DataFrame :=
  mkDF (range_index 3)
       [("when", mkSeries (DDatetime64 None)
                   [CTime (Ts 20200103); CTime (Ts 20200101); CTime (Ts 20200102)]);
        ("note", mkSeries DObject [CStr "2020-01-01"; CStr "not-a-date"; CStr "2020-01-05"]);
        ("y", mkSeries int64 [CInt 3; CInt 1; CInt 2])].

(** A column of 32-bit integers and one of 32-bit floats. *)
Definition df_narrow : DataFrame :=
  mkDF (range_index 2)
       [("count", mkSeries (DInt true W32) [CInt 1; CInt 2]);
        ("ratio", mkSeries (DFloat W32) [CFloat (S754_zero false); CFloat S754_nan]);
        ("y", mkSeries float64 [CFloat S754_nan; CFloat (S754_zero false)])].

(** [n] rows with one integer column [y] holding [0 .. n-1]. *)
Definition df_rows (n : nat) : DataFrame :=
  mkDF (range_index n) [("y", mkSeries int64 (map (fun i => CInt (Z.of_nat i)) (seq 0 n)))].

(** [n] rows of the same date, numbered [0 .. n-1] in column [y]. *)
Definition when_same_day (n : nat) : Series :=
  mkSeries (DDatetime64 None) (repeat (CTime (Ts 20200101)) n).


(** Two text columns of dates: plain dates, and times with two
    different UTC offsets. *)
Definition df_offsets : DataFrame :=
  mkDF (range_index 2)
       [("day", mkSeries DObject [CStr "2020-01-01"; CStr "2020-01-02"]);
        ("stamp", mkSeries DObject [CStr "2020-01-01T00:00:00+01:00";
                                    CStr "2020-07-01T00:00:00+02:00"]);
        ("y", mkSeries int64 [CInt 1; CInt 2])].

(** The date column of [df_dates]. *)
Definition when_dates : Series :=
  mkSeries (DDatetime64 None)
           [CTime (Ts 20200103); CTime (Ts 20200101); CTime (Ts 20200102)].

(** [df_dates] with its rows in the order of the dates. *)
Definition df_dates_sorted : DataFrame := df_take [1; 2; 0]%nat df_dates.

(** ** Closed forms the loops are compared with *)

(** The same frame with every column rewritten by [f]. *)
Definition map_cols (f : string -> Series -> Series) (df : DataFrame) : DataFrame :=
  mkDF (index df) (map (fun cs => (fst cs, f (fst cs) (snd cs))) (data df)).

(** What the conversion pass makes of one column: an object column whose
    values all parse becomes the parsed column, any other column is
    kept. *)
Definition coerce_col (parse_ts : list Cell -> Cell -> option Timestamp)
  (result_kind : list Cell -> Converted) (s : Series) : Series :=
  if dtype_eqb (dtype s) DObject then
    match to_datetime parse_ts result_kind s with
    | Some t => t
    | None => s
    end
  else s.

(** The columns the conversion pass converts. *)
Definition coercible (parse_ts : list Cell -> Cell -> option Timestamp)
  (result_kind : list Cell -> Converted) (df : DataFrame) (col : string) : bool :=
  match getitem df col with
  | Some s =>
      dtype_eqb (dtype s) DObject &&
      match to_datetime parse_ts result_kind s with
      | Some _ => true
      | None => false
      end
  | None => false
  end.

(** The text columns of the frame that [pd.to_datetime] accepts come
    back with a datetime64 dtype, naive or aware. *)
Definition returns_datetime64 (parse_ts : list Cell -> Cell -> option Timestamp)
  (result_kind : list Cell -> Converted) (df : DataFrame) : Prop :=
  forall c s t,
    getitem df c = Some s -> dtype s = DObject ->
    to_datetime parse_ts result_kind s = Some t ->
    is_datetime64_any_dtype t = true.

(** Column [col] of the frame of step [i]: [i] repeated for the frame
    column, the first rows of the source column otherwise. *)
Definition frame_column (df : DataFrame) (i : Z) (col : string) (s : Series) : Series :=
  if String.eqb animation_frame_col col then
    mkSeries int64 (repeat (CInt i) (len (head i df)))
  else series_firstn (head_count i (len df)) s.

(** The labelled columns of every frame: those of [df] with the frame
    column replaced or added last. *)
Definition frame_schema (df : DataFrame) : list (string * Series) :=
  assoc_set animation_frame_col (mkSeries int64 []) (data df).

(** The frames of the steps [ks] one under the other, in the order of
    [ks]. *)
Definition stacked (df : DataFrame) (ks : list Z) : DataFrame :=
  mkDF (flat_map (fun i => index (head i df)) ks)
       (map (fun cs =>
               (fst cs,
                mkSeries (dtype (frame_column df 0 (fst cs) (snd cs)))
                         (flat_map (fun i => values (frame_column df i (fst cs) (snd cs))) ks)))
            (frame_schema df)).

(** ** The controls (lines 116-154) *)

(** Lines 116-119: the entries of the x-axis select box, the datetime
    columns when there are some and every column otherwise. *)
Definition x_axis_options (cl : Classification) : list string :=
  match cl_datetime_cols cl with
  | [] => columns (cl_df cl)
  | _ :: _ => cl_datetime_cols cl
  end.

(** Line 127: [numeric_cols[:min(5, len(numeric_cols))]], the y columns
    selected at first. *)
Definition default_y_cols (numeric : list string) : list string :=
  firstn (Nat.min 5 (List.length numeric)) numeric.

(** Lines 149-154: the bounds and the initial value of the slider of
    the starting point. *)
Definition start_slider_min : Z := 5.

Definition start_slider_max (df : DataFrame) : Z :=
  Z.max 10 (Z.of_nat (len df) - 1).

Definition start_slider_value (df : DataFrame) : Z :=
  Z.min 20 (Z.of_nat (len df) - 1).

(** Tactics for the shape of a concrete frame. *)
Ltac distinct_labels :=
  repeat (constructor; [simpl; intuition discriminate|]); constructor.

Ltac frame_shape :=
  split; [distinct_labels | repeat constructor].

(** * Properties *)

(** ** Labels, lookups and updates *)

Lemma dtype_eqb_eq (a b : Dtype) : dtype_eqb a b = true <-> a = b.
Proof.
  split.
  - destruct a as [s1 w1|w1| |t1|], b as [s2 w2|w2| |t2|]; simpl; try discriminate; auto.
    + intros H. apply andb_true_iff in H. destruct H as [Hs Hw].
      apply Bool.eqb_prop in Hs. subst.
      destruct w1, w2; simpl in Hw; try discriminate; reflexivity.
    + destruct w1, w2; simpl; try discriminate; reflexivity.
    + destruct t1, t2; simpl; try discriminate; auto.
      intros H. apply String.eqb_eq in H. now subst.
  - intros ->. destruct b as [s w|w| |t|]; simpl; auto.
    + rewrite Bool.eqb_reflx. destruct w; reflexivity.
    + destruct w; reflexivity.
    + destruct t; simpl; auto. apply String.eqb_refl.
Qed.

Lemma dtype_eqb_refl (a : Dtype) : dtype_eqb a a = true.
Proof. now apply dtype_eqb_eq. Qed.

Lemma mem_In (c : string) (l : list string) : mem c l = true <-> In c l.
Proof.
  unfold mem. rewrite existsb_exists. split.
  - intros [x [Hx He]]. apply String.eqb_eq in He. now subst.
  - intros H. exists c. split; auto. apply String.eqb_refl.
Qed.

Lemma mem_not_In (c : string) (l : list string) : mem c l = false <-> ~ In c l.
Proof.
  rewrite <- mem_In. destruct (mem c l); split; intros; try discriminate; auto.
  now contradiction H.
Qed.

Lemma lookup_In (c : string) (l : list (string * Series)) (s : Series) :
  lookup c l = Some s -> In (c, s) l.
Proof.
  induction l as [|[c' s'] l IH]; simpl; try discriminate.
  destruct (String.eqb c c') eqn:E.
  - apply String.eqb_eq in E. intros [= ->]. subst. now left.
  - intros H. right. auto.
Qed.

Lemma lookup_None (c : string) (l : list (string * Series)) :
  lookup c l = None <-> ~ In c (map fst l).
Proof.
  induction l as [|[c' s'] l IH]; simpl.
  - split; auto.
  - destruct (String.eqb c c') eqn:E.
    + apply String.eqb_eq in E. subst. split; try discriminate.
      intros H. exfalso. apply H. now left.
    + apply String.eqb_neq in E. rewrite IH. split.
      * intros H [H1|H1]; [congruence|auto].
      * intros H H1. apply H. now right.
Qed.

Lemma In_lookup (c : string) (s : Series) (l : list (string * Series)) :
  NoDup (map fst l) -> In (c, s) l -> lookup c l = Some s.
Proof.
  induction l as [|[c' s'] l IH]; simpl; intros Hnd Hin; [contradiction|].
  inversion Hnd as [|? ? Hni Hnd']; subst.
  destruct Hin as [Heq|Hin].
  - inversion Heq; subst. now rewrite String.eqb_refl.
  - destruct (String.eqb c c') eqn:E.
    + apply String.eqb_eq in E. subst. exfalso. apply Hni.
      apply (in_map fst) in Hin. exact Hin.
    + auto.
Qed.

Lemma lookup_map (f : string -> Series -> Series) (c : string)
  (l : list (string * Series)) :
  lookup c (map (fun cs => (fst cs, f (fst cs) (snd cs))) l)
  = option_map (f c) (lookup c l).
Proof.
  induction l as [|[c' s'] l IH]; simpl; auto.
  destruct (String.eqb c c') eqn:E; auto.
  apply String.eqb_eq in E. now subst.
Qed.

Lemma map_fst_map (f : string -> Series -> Series) (l : list (string * Series)) :
  map fst (map (fun cs => (fst cs, f (fst cs) (snd cs))) l) = map fst l.
Proof. rewrite map_map. now apply map_ext. Qed.

Lemma columns_map_cols f df : columns (map_cols f df) = columns df.
Proof. apply map_fst_map. Qed.

Lemma getitem_map_cols f df c :
  getitem (map_cols f df) c = option_map (f c) (getitem df c).
Proof. apply lookup_map. Qed.

Lemma map_cols_ext f g df :
  (forall c s, In (c, s) (data df) -> f c s = g c s) ->
  map_cols f df = map_cols g df.
Proof.
  intros H. unfold map_cols. f_equal. apply map_ext_in.
  intros [c s] Hin. simpl. f_equal. now apply H.
Qed.

Lemma map_cols_id df : map_cols (fun _ s => s) df = df.
Proof.
  destruct df as [idx d]. unfold map_cols. simpl. f_equal.
  rewrite <- (map_id d) at 2. apply map_ext. now intros [c s].
Qed.

Lemma map_cols_map_cols f g df :
  map_cols f (map_cols g df) = map_cols (fun c s => f c (g c s)) df.
Proof. unfold map_cols. simpl. f_equal. now rewrite map_map. Qed.

(** Under unique labels an assignment to an existing column rewrites
    that column and no other. *)
Lemma assoc_set_existing (c : string) (t : Series) (l : list (string * Series)) :
  NoDup (map fst l) -> In c (map fst l) ->
  assoc_set c t l
  = map (fun cs => (fst cs, if String.eqb c (fst cs) then t else snd cs)) l.
Proof.
  induction l as [|[c' s'] l IH]; simpl; intros Hnd Hin; [contradiction|].
  inversion Hnd as [|? ? Hni Hnd']; subst.
  destruct (String.eqb c c') eqn:E.
  - apply String.eqb_eq in E. subst. f_equal.
    rewrite <- (map_id l) at 1. apply map_ext_in.
    intros [c s] Hcs. simpl.
    destruct (String.eqb c' c) eqn:E'; auto.
    apply String.eqb_eq in E'. subst. exfalso. apply Hni.
    apply (in_map fst) in Hcs. exact Hcs.
  - f_equal. apply IH; auto.
    destruct Hin as [Hin|Hin]; auto.
    apply String.eqb_neq in E. congruence.
Qed.

Lemma setitem_existing df c t :
  NoDup (columns df) -> In c (columns df) ->
  setitem df c t = map_cols (fun c' s => if String.eqb c c' then t else s) df.
Proof.
  intros Hnd Hin. unfold setitem, map_cols. f_equal.
  now apply assoc_set_existing.
Qed.

Lemma getitem_In_columns df c s : getitem df c = Some s -> In c (columns df).
Proof.
  intros H. apply lookup_In in H. apply (in_map fst) in H. exact H.
Qed.

(** ** The conversion pass *)

Section ClassifierFacts.

Variable parse_ts : list Cell -> Cell -> option Timestamp.
Variable result_kind : list Cell -> Converted.

Lemma traverse_length {A B : Type} (f : A -> option B) (l : list A) (r : list B) :
  traverse f l = Some r -> List.length r = List.length l.
Proof.
  revert r. induction l as [|a l IH]; simpl; intros r.
  - now intros [= <-].
  - destruct (f a); try discriminate.
    destruct (traverse f l); try discriminate.
    intros [= <-]. simpl. f_equal. now apply IH.
Qed.

Lemma traverse_fails {A B : Type} (f : A -> option B) (l : list A) (a : A) :
  In a l -> f a = None -> traverse f l = None.
Proof.
  induction l as [|b l IH]; simpl; intros Hin Hf; [contradiction|].
  destruct Hin as [->|Hin].
  - now rewrite Hf.
  - destruct (f b); auto. now rewrite IH.
Qed.

Lemma to_datetime_dtype (s t : Series) :
  to_datetime parse_ts result_kind s = Some t ->
  dtype t = converted_dtype (result_kind (values s)) /\
  List.length (values t) = List.length (values s).
Proof.
  unfold to_datetime.
  destruct (traverse (parse_ts (values s)) (values s)) eqn:E; try discriminate.
  intros [= <-]. cbn [dtype values]. split; auto.
  rewrite length_map. now apply traverse_length in E.
Qed.

Lemma converted_dtype_not_numeric (k : Converted) :
  existsb (dtype_eqb (converted_dtype k)) [float64; int64] = false.
Proof. now destruct k. Qed.

Lemma to_datetime_fails (s : Series) (v : Cell) :
  In v (values s) -> parse_ts (values s) v = None -> to_datetime parse_ts result_kind s = None.
Proof.
  intros Hin Hv. unfold to_datetime.
  now rewrite (traverse_fails (parse_ts (values s)) (values s) v Hin Hv).
Qed.

Lemma coercible_coerce_col df c s :
  getitem df c = Some s -> coercible parse_ts result_kind df c = false ->
  coerce_col parse_ts result_kind s = s.
Proof.
  unfold coercible, coerce_col. intros ->.
  destruct (dtype_eqb (dtype s) DObject); simpl; auto.
  destruct (to_datetime parse_ts result_kind s); auto; discriminate.
Qed.

(** The loop of lines 92-100 over the labels [names], from any state:
    every listed column is converted when it can be, and the converted
    labels are appended in the order of [names]. *)
Lemma coerce_loop (names : list string) :
  forall (df : DataFrame) (acc : list string),
    NoDup names -> NoDup (columns df) ->
    fold_left (coerce_step parse_ts result_kind) names (df, acc)
    = (map_cols (fun c s => if mem c names then coerce_col parse_ts result_kind s else s) df,
       acc ++ filter (coercible parse_ts result_kind df) names).
Proof.
  induction names as [|c names IH]; intros df acc Hn Hd.
  - simpl. now rewrite map_cols_id, app_nil_r.
  - inversion Hn as [|? ? Hc Hn']; subst.
    cbn [fold_left coerce_step filter].
    assert (Hother : forall c' s', In (c', s') (data df) -> c' <> c ->
              (if mem c' (c :: names) then coerce_col parse_ts result_kind s' else s')
              = (if mem c' names then coerce_col parse_ts result_kind s' else s')).
    { intros c' s' _ Hne. unfold mem. simpl.
      destruct (String.eqb c' c) eqn:E; auto.
      apply String.eqb_eq in E. contradiction. }
    assert (Hkeep : forall s, getitem df c = Some s -> coerce_col parse_ts result_kind s = s ->
              map_cols (fun c' s' => if mem c' names then coerce_col parse_ts result_kind s' else s') df
              = map_cols (fun c' s' => if mem c' (c :: names) then coerce_col parse_ts result_kind s' else s') df).
    { intros s Hs Hcs. apply map_cols_ext. intros c' s' Hin.
      destruct (string_dec c' c) as [->|Hne].
      - apply (In_lookup _ _ _ Hd) in Hin. unfold getitem in Hs.
        rewrite Hs in Hin. injection Hin as <-.
        unfold mem at 2. simpl. rewrite String.eqb_refl. simpl.
        destruct (mem c names); auto.
      - symmetry. now apply Hother. }
    destruct (getitem df c) as [s|] eqn:Hs.
    + destruct (dtype_eqb (dtype s) DObject) eqn:Hobj.
      * destruct (to_datetime parse_ts result_kind s) as [t|] eqn:Ht.
        -- assert (Hco : coercible parse_ts result_kind df c = true).
           { unfold coercible. now rewrite Hs, Hobj, Ht. }
           rewrite Hco.
           assert (Hin : In c (columns df)) by now apply getitem_In_columns in Hs.
           rewrite IH; auto.
           2:{ rewrite (setitem_existing _ _ _ Hd Hin). now rewrite columns_map_cols. }
           rewrite (setitem_existing _ _ _ Hd Hin), map_cols_map_cols.
           f_equal.
           ++ apply map_cols_ext. intros c' s' Hin'.
              destruct (String.eqb c c') eqn:E.
              ** apply String.eqb_eq in E. subst c'.
                 apply (In_lookup _ _ _ Hd) in Hin'. unfold getitem in Hs.
                 rewrite Hs in Hin'. injection Hin' as <-.
                 apply mem_not_In in Hc. rewrite Hc.
                 unfold mem. simpl. rewrite String.eqb_refl. simpl.
                 unfold coerce_col. now rewrite Hobj, Ht.
              ** apply String.eqb_neq in E. symmetry. apply Hother; auto.
           ++ rewrite <- app_assoc. simpl. do 2 f_equal.
              apply filter_ext_in. intros c' Hin'.
              unfold coercible. rewrite getitem_map_cols.
              destruct (String.eqb c c') eqn:E.
              ** apply String.eqb_eq in E. subst. contradiction.
              ** now destruct (getitem df c').
        -- assert (Hco : coercible parse_ts result_kind df c = false).
           { unfold coercible. now rewrite Hs, Hobj, Ht. }
           rewrite Hco, IH; auto. f_equal. apply (Hkeep s eq_refl).
           unfold coerce_col. now rewrite Hobj, Ht.
      * assert (Hco : coercible parse_ts result_kind df c = false).
        { unfold coercible. now rewrite Hs, Hobj. }
        rewrite Hco, IH; auto. f_equal. apply (Hkeep s eq_refl).
        unfold coerce_col. now rewrite Hobj.
    + assert (Hco : coercible parse_ts result_kind df c = false).
      { unfold coercible. now rewrite Hs. }
      rewrite Hco, IH; auto. f_equal. apply map_cols_ext. intros c' s' Hin.
      symmetry. apply Hother; auto. intros ->.
      apply lookup_None in Hs. apply Hs. apply (in_map fst) in Hin. exact Hin.
Qed.

(** The analysis in closed form. *)
Lemma classify_closed (df : DataFrame) :
  NoDup (columns df) ->
  classify parse_ts result_kind df
  = match native_datetime_cols df with
    | [] => mkClassification (map_cols (fun _ s => coerce_col parse_ts result_kind s) df)
                             (numeric_cols df)
                             (filter (coercible parse_ts result_kind df) (columns df))
    | _ :: _ => mkClassification df (numeric_cols df) (native_datetime_cols df)
    end.
Proof.
  intros Hd. unfold classify.
  destruct (native_datetime_cols df) eqn:Hn; auto.
  rewrite coerce_loop; auto. simpl. f_equal.
  apply map_cols_ext. intros c s Hin.
  assert (H : mem c (columns df) = true).
  { apply mem_In. apply (in_map fst) in Hin. exact Hin. }
  now rewrite H.
Qed.

End ClassifierFacts.

(** ** The numeric columns (line 88) *)

Lemma numeric_dtype_cells (s : Series) :
  dtype s = int64 \/ dtype s = float64 -> well_typed s ->
  forallb cell_is_numeric (values s) = true.
Proof.
  unfold well_typed. intros Hd Ht.
  rewrite forallb_forall in *. intros c Hc. specialize (Ht c Hc).
  destruct Hd as [Hd|Hd]; rewrite Hd in Ht; destruct c; simpl in *; auto; discriminate.
Qed.

Lemma selected_numeric (d : Dtype) :
  existsb (dtype_eqb d) [float64; int64] = true <-> d = int64 \/ d = float64.
Proof.
  simpl. rewrite !orb_true_iff, !dtype_eqb_eq. intuition congruence.
Qed.

Lemma In_numeric_cols (df : DataFrame) (c : string) :
  In c (numeric_cols df) <->
  exists s, In (c, s) (data df) /\ (dtype s = int64 \/ dtype s = float64).
Proof.
  unfold numeric_cols, columns, select_dtypes. simpl.
  rewrite in_map_iff. split.
  - intros [[c' s] [Hc Hin]]. simpl in Hc. subst c'.
    apply filter_In in Hin. destruct Hin as [Hin Hsel]. simpl in Hsel.
    exists s. split; auto. now apply selected_numeric.
  - intros [s [Hin Hd]]. exists (c, s). split; auto.
    apply filter_In. split; auto. simpl. now apply selected_numeric.
Qed.

(** C3, as amended: on a well-formed frame the numeric list holds exactly
    the columns of dtype [int64] or [float64]; each of them has numeric
    cells only, and every column of one of these two dtypes is listed. *)
Theorem numeric_cols_exact (df : DataFrame) :
  wf_df df ->
  (forall c, In c (numeric_cols df) ->
     exists s, getitem df c = Some s /\
               (dtype s = int64 \/ dtype s = float64) /\
               forallb cell_is_numeric (values s) = true) /\
  (forall c s, getitem df c = Some s ->
     dtype s = int64 \/ dtype s = float64 -> In c (numeric_cols df)).
Proof.
  intros [[Hnd _] Hty]. split.
  - intros c Hc. apply In_numeric_cols in Hc. destruct Hc as [s [Hin Hd]].
    exists s. split; [now apply In_lookup|]. split; auto.
    apply numeric_dtype_cells; auto.
    rewrite Forall_forall in Hty. apply (Hty (c, s) Hin).
  - intros c s Hs Hd. apply In_numeric_cols. exists s. split; auto.
    now apply lookup_In.
Qed.

(** ** The datetime columns (lines 89-100) *)

Section ClassifierClaims.

Variable parse_ts : list Cell -> Cell -> option Timestamp.
Variable result_kind : list Cell -> Converted.

Lemma In_native_datetime_cols (df : DataFrame) (c : string) :
  In c (native_datetime_cols df) <->
  exists s, getitem df c = Some s /\ is_datetime64_any_dtype s = true.
Proof.
  unfold native_datetime_cols. rewrite filter_In. unfold is_datetime_col. split.
  - intros [_ H]. destruct (getitem df c) as [s|]; try discriminate. now exists s.
  - intros [s [Hs Hd]]. split; [now apply getitem_In_columns in Hs|]. now rewrite Hs.
Qed.

Lemma object_not_datetime (s : Series) :
  dtype_eqb (dtype s) DObject = true -> is_datetime64_any_dtype s = false.
Proof.
  intros H. apply dtype_eqb_eq in H. unfold is_datetime64_any_dtype. now rewrite H.
Qed.

Lemma coerce_col_unparseable (s : Series) (v : Cell) :
  In v (values s) -> parse_ts (values s) v = None -> coerce_col parse_ts result_kind s = s.
Proof.
  intros Hin Hv. unfold coerce_col.
  rewrite (to_datetime_fails parse_ts result_kind s v Hin Hv). now destruct (dtype_eqb _ _).
Qed.

(** C5: a text column with a value the parser rejects is left as it was
    and is not listed among the datetime columns; the analysis itself
    always returns. *)
Theorem unparseable_column_excluded (df : DataFrame) (c : string) (s : Series) (v : Cell) :
  NoDup (columns df) ->
  getitem df c = Some s -> dtype s = DObject ->
  In v (values s) -> parse_ts (values s) v = None ->
  getitem (cl_df (classify parse_ts result_kind df)) c = Some s /\
  ~ In c (cl_datetime_cols (classify parse_ts result_kind df)).
Proof.
  intros Hnd Hs Hobj Hin Hv. rewrite classify_closed; auto.
  destruct (native_datetime_cols df) eqn:Hn; cbn [cl_df cl_datetime_cols cl_numeric_cols].
  - split.
    + rewrite getitem_map_cols, Hs. simpl. f_equal.
      now apply coerce_col_unparseable with v.
    + intros Hc. apply filter_In in Hc. destruct Hc as [_ Hc].
      unfold coercible in Hc. rewrite Hs in Hc.
      rewrite (to_datetime_fails parse_ts result_kind s v Hin Hv) in Hc.
      now rewrite andb_false_r in Hc.
  - split; auto. rewrite <- Hn. intros Hc.
    apply In_native_datetime_cols in Hc. destruct Hc as [s' [Hs' Hd]].
    rewrite Hs in Hs'. injection Hs' as <-.
    unfold is_datetime64_any_dtype in Hd. now rewrite Hobj in Hd.
Qed.

Lemma coerce_col_numeric (s : Series) :
  existsb (dtype_eqb (dtype (coerce_col parse_ts result_kind s))) [float64; int64]
  = existsb (dtype_eqb (dtype s)) [float64; int64].
Proof.
  unfold coerce_col. destruct (dtype_eqb (dtype s) DObject) eqn:Hobj; auto.
  destruct (to_datetime parse_ts result_kind s) as [t|] eqn:Ht; auto.
  apply to_datetime_dtype in Ht. destruct Ht as [Ht _].
  apply dtype_eqb_eq in Hobj. now rewrite Ht, Hobj, converted_dtype_not_numeric.
Qed.

Lemma numeric_cols_coerced (df : DataFrame) :
  numeric_cols (map_cols (fun _ s => coerce_col parse_ts result_kind s) df) = numeric_cols df.
Proof.
  unfold numeric_cols, columns, select_dtypes, map_cols. cbn [data].
  induction (data df) as [|[c s] l IH]; auto.
  cbn [map filter fst snd]. rewrite coerce_col_numeric.
  destruct (existsb _ _); cbn [map fst]; now rewrite IH.
Qed.

(** After the pass, the datetime columns are the converted ones, as
    long as they all came back as datetime64 columns. *)
Lemma native_after_coercion (df : DataFrame) :
  returns_datetime64 parse_ts result_kind df ->
  native_datetime_cols df = [] ->
  native_datetime_cols (map_cols (fun _ s => coerce_col parse_ts result_kind s) df)
  = filter (coercible parse_ts result_kind df) (columns df).
Proof.
  intros Hret Hn. unfold native_datetime_cols at 1. rewrite columns_map_cols.
  apply filter_ext_in. intros c Hc.
  unfold is_datetime_col, coercible. rewrite getitem_map_cols.
  destruct (getitem df c) as [s|] eqn:Hs; simpl; auto.
  assert (Hnat : is_datetime64_any_dtype s = false).
  { destruct (is_datetime64_any_dtype s) eqn:E; auto.
    assert (Hin : In c (native_datetime_cols df)).
    { apply In_native_datetime_cols. now exists s. }
    rewrite Hn in Hin. contradiction. }
  unfold coerce_col. destruct (dtype_eqb (dtype s) DObject) eqn:Hobj; simpl; auto.
  destruct (to_datetime parse_ts result_kind s) as [t|] eqn:Ht; auto.
  apply dtype_eqb_eq in Hobj. exact (Hret c s t Hs Hobj Ht).
Qed.

(** C6, as amended: when every text column that [pd.to_datetime]
    accepts comes back with a datetime64 dtype, analysing the analysed
    frame again changes nothing: same frame, same numeric list, same
    datetime list. *)
Theorem classify_idempotent (df : DataFrame) :
  NoDup (columns df) ->
  returns_datetime64 parse_ts result_kind df ->
  classify parse_ts result_kind (cl_df (classify parse_ts result_kind df))
  = classify parse_ts result_kind df.
Proof.
  intros Hnd Hret. rewrite (classify_closed parse_ts result_kind df Hnd).
  destruct (native_datetime_cols df) as [|d ds] eqn:Hn; cbn [cl_df cl_datetime_cols cl_numeric_cols].
  - rewrite classify_closed by now rewrite columns_map_cols.
    rewrite native_after_coercion, numeric_cols_coerced by assumption.
    destruct (filter (coercible parse_ts result_kind df) (columns df)) as [|c cs] eqn:Hf; auto.
    assert (Hsame : map_cols (fun _ s => coerce_col parse_ts result_kind s) df = df).
    { rewrite <- (map_cols_id df) at 2. apply map_cols_ext. intros c s Hin.
      apply coercible_coerce_col with df c; [now apply In_lookup|].
      destruct (coercible parse_ts result_kind df c) eqn:E; auto.
      assert (Hc : In c (filter (coercible parse_ts result_kind df) (columns df))).
      { apply filter_In. split; auto. apply (in_map fst) in Hin. exact Hin. }
      rewrite Hf in Hc. contradiction. }
    rewrite !Hsame. now rewrite Hf.
  - rewrite classify_closed by assumption. now rewrite Hn.
Qed.

(** C8: as soon as one column is a datetime column, the pass over the
    text columns does not run: whatever the parser, the frame comes back
    as it was and the datetime list is the list of datetime columns. *)
Theorem native_datetime_skips_coercion (df : DataFrame) (c : string) (s : Series) :
  getitem df c = Some s -> is_datetime64_any_dtype s = true ->
  classify parse_ts result_kind df
  = mkClassification df (numeric_cols df) (native_datetime_cols df).
Proof.
  intros Hs Hd. unfold classify.
  assert (Hin : In c (native_datetime_cols df)).
  { apply In_native_datetime_cols. now exists s. }
  destruct (native_datetime_cols df); [contradiction|reflexivity].
Qed.

(** C10: the analysis keeps the labels, the index (so the rows and their
    order) and the length of every column; a column keeps its dtype and
    cells unless it is listed as converted, and numeric columns, datetime
    columns and text columns with a rejected value are never converted. *)
Theorem classify_frame_effect (df : DataFrame) :
  NoDup (columns df) ->
  let r := classify parse_ts result_kind df in
  columns (cl_df r) = columns df /\
  index (cl_df r) = index df /\
  (forall c s, getitem df c = Some s ->
     exists s', getitem (cl_df r) c = Some s' /\
                List.length (values s') = List.length (values s) /\
                (s' = s \/
                 (native_datetime_cols df = [] /\ dtype s = DObject /\
                  to_datetime parse_ts result_kind s = Some s' /\ In c (cl_datetime_cols r)))) /\
  (forall c s, getitem df c = Some s ->
     In c (numeric_cols df) \/ is_datetime64_any_dtype s = true \/
     dtype s <> DObject \/ (exists v, In v (values s) /\ parse_ts (values s) v = None) \/
     ~ In c (cl_datetime_cols r) ->
     getitem (cl_df r) c = Some s).
Proof.
  intros Hnd r. subst r. rewrite classify_closed; auto.
  destruct (native_datetime_cols df) as [|d ds] eqn:Hn; cbn [cl_df cl_datetime_cols cl_numeric_cols].
  - split; [apply columns_map_cols|]. split; [reflexivity|].
    assert (Hconv : forall c s, getitem df c = Some s ->
              coerce_col parse_ts result_kind s = s \/
              (dtype s = DObject /\ to_datetime parse_ts result_kind s = Some (coerce_col parse_ts result_kind s) /\
               coercible parse_ts result_kind df c = true)).
    { intros c s Hs. unfold coerce_col, coercible. rewrite Hs.
      destruct (dtype_eqb (dtype s) DObject) eqn:Hobj; auto.
      destruct (to_datetime parse_ts result_kind s) as [t|] eqn:Ht; auto.
      right. apply dtype_eqb_eq in Hobj. auto. }
    split.
    + intros c s Hs. exists (coerce_col parse_ts result_kind s).
      rewrite getitem_map_cols, Hs. split; auto.
      destruct (Hconv c s Hs) as [E|[Hobj [Ht Hco]]].
      * rewrite E. auto.
      * split; [now apply to_datetime_dtype in Ht|].
        right. repeat split; auto. apply filter_In. split; auto.
        now apply getitem_In_columns in Hs.
    + intros c s Hs Hcase. rewrite getitem_map_cols, Hs. simpl. f_equal.
      destruct (Hconv c s Hs) as [E|[Hobj [Ht Hco]]]; auto.
      exfalso. destruct Hcase as [H|[H|[H|[[v [Hv Hp]]|H]]]].
      * apply In_numeric_cols in H. destruct H as [s' [Hin Hd]].
        apply (In_lookup _ _ _ Hnd) in Hin. unfold getitem in Hs.
        rewrite Hs in Hin. injection Hin as <-.
        rewrite Hobj in Hd. destruct Hd; discriminate.
      * unfold is_datetime64_any_dtype in H. now rewrite Hobj in H.
      * contradiction.
      * rewrite (to_datetime_fails parse_ts result_kind s v Hv Hp) in Ht. discriminate.
      * apply H. apply filter_In. split; auto. now apply getitem_In_columns in Hs.
  - split; auto. split; auto. split.
    + intros c s Hs. exists s. auto.
    + auto.
Qed.

End ClassifierClaims.

(** ** The analysis on the sample frames *)

Lemma df_text_aligned : aligned df_text.
Proof. frame_shape. Qed.

Lemma df_dates_aligned : aligned df_dates.
Proof. frame_shape. Qed.

Lemma df_narrow_wf : wf_df df_narrow.
Proof. split; [frame_shape | repeat constructor]. Qed.

Lemma df_text_wf : wf_df df_text.
Proof. split; [frame_shape | repeat constructor]. Qed.

Example classify_df_text :
  let r := classify sample_parse sample_kind df_text in
  cl_df r = df_dates /\ cl_numeric_cols r = ["y"] /\ cl_datetime_cols r = ["when"].
Proof. repeat split. Qed.

Lemma numeric_cols_exact_witness :
  wf_df df_text /\
  (forall c, In c (numeric_cols df_text) ->
     exists s, getitem df_text c = Some s /\
               (dtype s = int64 \/ dtype s = float64) /\
               forallb cell_is_numeric (values s) = true) /\
  (forall c s, getitem df_text c = Some s ->
     dtype s = int64 \/ dtype s = float64 -> In c (numeric_cols df_text)).
Proof.
  split; [exact df_text_wf|].
  apply (numeric_cols_exact df_text). exact df_text_wf.
Defined.

(** C3 as the claim states it fails: a column of 32-bit integers is of
    an integer type and is not in the numeric list. *)
Lemma numeric_cols_misses_narrow_types :
  ~ (forall df c s, wf_df df -> getitem df c = Some s ->
       is_integer_or_float (dtype s) = true -> In c (numeric_cols df)).
Proof.
  intros H.
  specialize (H df_narrow "count" (mkSeries (DInt true W32) [CInt 1; CInt 2])
                df_narrow_wf eq_refl eq_refl).
  vm_compute in H. intuition discriminate.
Qed.

Lemma unparseable_column_excluded_witness :
  getitem (cl_df (classify sample_parse sample_kind df_text)) "note"
  = Some (mkSeries DObject [CStr "2020-01-01"; CStr "not-a-date"; CStr "2020-01-05"]) /\
  ~ In "note" (cl_datetime_cols (classify sample_parse sample_kind df_text)).
Proof.
  apply (unparseable_column_excluded sample_parse sample_kind df_text "note"
           (mkSeries DObject [CStr "2020-01-01"; CStr "not-a-date"; CStr "2020-01-05"])
           (CStr "not-a-date")).
  - distinct_labels.
  - reflexivity.
  - reflexivity.
  - simpl. auto.
  - reflexivity.
Defined.

Lemma df_text_returns_datetime64 : returns_datetime64 sample_parse sample_kind df_text.
Proof.
  intros c s t Hs Hobj Ht. unfold getitem, df_text in Hs. cbn [data lookup] in Hs.
  destruct (String.eqb c "when"); [injection Hs as <-|].
  - vm_compute in Ht. now injection Ht as <-.
  - destruct (String.eqb c "note"); [injection Hs as <-|].
    + vm_compute in Ht. discriminate.
    + destruct (String.eqb c "y"); [injection Hs as <-|discriminate].
      vm_compute in Hobj. discriminate.
Qed.

Lemma classify_idempotent_witness :
  returns_datetime64 sample_parse sample_kind df_text /\
  classify sample_parse sample_kind (cl_df (classify sample_parse sample_kind df_text))
  = classify sample_parse sample_kind df_text.
Proof.
  split; [exact df_text_returns_datetime64|].
  apply (classify_idempotent sample_parse sample_kind df_text).
  - distinct_labels.
  - exact df_text_returns_datetime64.
Defined.

(** C6 as the claim states it fails: a text column of times with two
    different UTC offsets is accepted by [pd.to_datetime] and comes back
    as an object column (pandas before 3.0); lines 95-98 list it all the
    same, and a second analysis, which finds the datetime column made by
    the first, lists that one alone. *)
Lemma classify_twice_lists_fewer :
  NoDup (columns df_offsets) /\
  cl_datetime_cols (classify sample_parse sample_kind df_offsets) = ["day"; "stamp"] /\
  cl_datetime_cols
    (classify sample_parse sample_kind
       (cl_df (classify sample_parse sample_kind df_offsets))) = ["day"] /\
  classify sample_parse sample_kind
    (cl_df (classify sample_parse sample_kind df_offsets))
  <> classify sample_parse sample_kind df_offsets.
Proof.
  split; [distinct_labels|]. split; [reflexivity|]. split; [reflexivity|].
  vm_compute. discriminate.
Qed.

Lemma native_datetime_skips_coercion_witness :
  classify sample_parse sample_kind df_dates
  = mkClassification df_dates (numeric_cols df_dates) (native_datetime_cols df_dates).
Proof.
  apply (native_datetime_skips_coercion sample_parse sample_kind df_dates "when"
           (mkSeries (DDatetime64 None)
              [CTime (Ts 20200103); CTime (Ts 20200101); CTime (Ts 20200102)])).
  - reflexivity.
  - reflexivity.
Defined.

Lemma classify_frame_effect_witness :
  columns (cl_df (classify sample_parse sample_kind df_text)) = columns df_text /\
  index (cl_df (classify sample_parse sample_kind df_text)) = index df_text /\
  getitem (cl_df (classify sample_parse sample_kind df_text)) "note" = getitem df_text "note".
Proof.
  assert (Hnd : NoDup (columns df_text)) by distinct_labels.
  destruct (classify_frame_effect sample_parse sample_kind df_text Hnd) as [Hc [Hi [_ Hk]]].
  split; [exact Hc|]. split; [exact Hi|].
  apply (Hk "note" (mkSeries DObject [CStr "2020-01-01"; CStr "not-a-date"; CStr "2020-01-05"])).
  - reflexivity.
  - right. right. right. left. exists (CStr "not-a-date"). simpl. auto.
Defined.

(** ** Ranges, masks and prefixes *)

Lemma arange_empty (a b : Z) : (b <= a)%Z -> arange a b = [].
Proof.
  intros H. unfold arange. replace (Z.to_nat (b - a)) with 0%nat by lia. reflexivity.
Qed.

Lemma arange_cons (a b : Z) : (a < b)%Z -> arange a b = a :: arange (a + 1) b.
Proof.
  intros H. unfold arange.
  replace (Z.to_nat (b - a)) with (S (Z.to_nat (b - (a + 1)))) by lia.
  cbn [seq map]. f_equal; [lia|].
  rewrite <- seq_shift, map_map. apply map_ext. intros i. lia.
Qed.

Lemma In_arange (a b i : Z) : In i (arange a b) <-> (a <= i < b)%Z.
Proof.
  unfold arange. rewrite in_map_iff. split.
  - intros [j [<- Hj]]. apply in_seq in Hj. lia.
  - intros H. exists (Z.to_nat (i - a)). split; [lia|]. apply in_seq. lia.
Qed.

Lemma NoDup_map_inj {A B : Type} (f : A -> B) (l : list A) :
  (forall x y, f x = f y -> x = y) -> NoDup l -> NoDup (map f l).
Proof.
  intros Hf. induction 1 as [|x l Hx Hnd IH]; simpl; constructor; auto.
  intros Hin. apply in_map_iff in Hin. destruct Hin as [y [Hy Hin]].
  apply Hf in Hy. now subst.
Qed.

Lemma NoDup_arange (a b : Z) : NoDup (arange a b).
Proof.
  unfold arange. apply NoDup_map_inj; [|apply seq_NoDup].
  intros i j H. lia.
Qed.

Lemma sum_arange (m : nat) :
  forall a : Z,
    (2 * sum_Z (arange a (a + Z.of_nat m)) = Z.of_nat m * (2 * a + Z.of_nat m - 1))%Z.
Proof.
  induction m as [|m IH]; intros a.
  - rewrite arange_empty by lia. simpl. lia.
  - rewrite arange_cons by lia. cbn [sum_Z fold_right].
    replace (a + Z.of_nat (S m))%Z with ((a + 1) + Z.of_nat m)%Z by lia.
    fold (sum_Z (arange (a + 1) (a + 1 + Z.of_nat m))).
    specialize (IH (a + 1)%Z). nia.
Qed.

Lemma flat_map_ext_in {A B : Type} (f g : A -> list B) (l : list A) :
  (forall a, In a l -> f a = g a) -> flat_map f l = flat_map g l.
Proof.
  induction l as [|a l IH]; simpl; intros H; auto.
  rewrite H by now left. f_equal. apply IH. intros b Hb. apply H. now right.
Qed.

Lemma select_app {A : Type} (m1 m2 : list bool) (l1 l2 : list A) :
  List.length m1 = List.length l1 ->
  select (m1 ++ m2) (l1 ++ l2) = select m1 l1 ++ select m2 l2.
Proof.
  revert l1. induction m1 as [|b m1 IH]; intros [|a l1]; simpl; try discriminate.
  - reflexivity.
  - intros [= H]. destruct b; simpl; now rewrite IH.
Qed.

Lemma select_repeat {A : Type} (b : bool) (l : list A) :
  select (repeat b (List.length l)) l = if b then l else [].
Proof.
  induction l as [|a l IH]; simpl.
  - now destruct b.
  - rewrite IH. now destruct b.
Qed.

(** Masking the stacked blocks by the step number keeps one block. *)
Lemma select_blocks {A : Type} (g : Z -> list A) (k : Z) (ks : list Z) :
  select (map (is_frame k) (flat_map (fun i => repeat (CInt i) (List.length (g i))) ks))
         (flat_map g ks)
  = flat_map (fun i => if (i =? k)%Z then g i else []) ks.
Proof.
  induction ks as [|i ks IH]; simpl; auto.
  rewrite map_app, select_app, IH.
  - f_equal. rewrite map_repeat. simpl. apply select_repeat.
  - now rewrite length_map, repeat_length.
Qed.

Lemma flat_map_skip {A : Type} (g : Z -> list A) (k : Z) (ks : list Z) :
  ~ In k ks -> flat_map (fun i => if (i =? k)%Z then g i else []) ks = [].
Proof.
  induction ks as [|j ks IH]; simpl; intros Hni; auto.
  destruct (Z.eqb_spec j k) as [->|Hne].
  - exfalso. apply Hni. now left.
  - apply IH. intros H. apply Hni. now right.
Qed.

Lemma flat_map_pick {A : Type} (g : Z -> list A) (k : Z) (ks : list Z) :
  NoDup ks -> In k ks ->
  flat_map (fun i => if (i =? k)%Z then g i else []) ks = g k.
Proof.
  induction ks as [|i ks IH]; simpl; intros Hnd Hin; [contradiction|].
  inversion Hnd as [|? ? Hni Hnd']; subst.
  destruct (Z.eqb_spec i k) as [->|Hne].
  - now rewrite flat_map_skip, app_nil_r.
  - destruct Hin as [Hin|Hin]; [contradiction|]. simpl. now apply IH.
Qed.

Lemma head_count_in_range (k : Z) (n : nat) :
  (0 <= k <= Z.of_nat n)%Z -> head_count k n = Z.to_nat k /\ (Z.to_nat k <= n)%nat.
Proof.
  intros H. unfold head_count.
  destruct (Z.leb_spec 0 k); lia.
Qed.

(** ** Updates of the frame column *)

Lemma lookup_assoc_set_same c t l : lookup c (assoc_set c t l) = Some t.
Proof.
  induction l as [|[c' s'] l IH]; simpl.
  - now rewrite String.eqb_refl.
  - destruct (String.eqb c c') eqn:E; simpl; now rewrite E.
Qed.

Lemma lookup_assoc_set_other c c' t l :
  c' <> c -> lookup c' (assoc_set c t l) = lookup c' l.
Proof.
  intros Hne. induction l as [|[c0 s0] l IH]; simpl.
  - apply String.eqb_neq in Hne. now rewrite Hne.
  - destruct (String.eqb c c0) eqn:E; simpl.
    + apply String.eqb_eq in E. subst c0.
      apply String.eqb_neq in Hne. now rewrite Hne.
    + now rewrite IH.
Qed.

Lemma In_assoc_set c t l c' s' :
  In (c', s') (assoc_set c t l) -> c' = c \/ In (c', s') l.
Proof.
  induction l as [|[c0 s0] l IH]; simpl.
  - intros [[= <- <-]|[]]. now left.
  - destruct (String.eqb c c0) eqn:E; simpl.
    + apply String.eqb_eq in E. subst c0.
      intros [[= <- <-]|H]; auto.
    + intros [H|H]; auto. destruct (IH H); auto.
Qed.

Lemma assoc_set_labels c t l :
  map fst (assoc_set c t l) = if mem c (map fst l) then map fst l else map fst l ++ [c].
Proof.
  induction l as [|[c0 s0] l IH]; simpl; auto.
  unfold mem in *. simpl.
  destruct (String.eqb c c0) eqn:E; simpl; auto.
  rewrite IH. now destruct (existsb (String.eqb c) (map fst l)).
Qed.

Lemma assoc_set_NoDup c t l : NoDup (map fst l) -> NoDup (map fst (assoc_set c t l)).
Proof.
  intros Hnd. rewrite assoc_set_labels.
  destruct (mem c (map fst l)) eqn:E; auto.
  apply mem_not_In in E.
  apply NoDup_app; auto.
  - repeat constructor. simpl. tauto.
  - intros x Hx [<-|[]]. contradiction.
Qed.

Lemma assoc_set_nonempty c t l : assoc_set c t l <> [].
Proof.
  destruct l as [|[c0 s0] l]; simpl; try discriminate.
  destruct (String.eqb c c0); discriminate.
Qed.

(** Assigning into a frame whose columns were all rewritten by [g]. *)
Lemma assoc_set_map (g : Series -> Series) c t t0 l :
  NoDup (map fst l) ->
  assoc_set c t (map (fun cs => (fst cs, g (snd cs))) l)
  = map (fun cs => (fst cs, if String.eqb c (fst cs) then t else g (snd cs)))
        (assoc_set c t0 l).
Proof.
  induction l as [|[c0 s0] l IH]; simpl; intros Hnd.
  - now rewrite String.eqb_refl.
  - inversion Hnd as [|? ? Hni Hnd']; subst.
    destruct (String.eqb c c0) eqn:E; simpl; rewrite E.
    + f_equal. apply map_ext_in. intros [c1 s1] Hin. simpl.
      destruct (String.eqb c c1) eqn:E1; auto.
      apply String.eqb_eq in E, E1. subst. exfalso. apply Hni.
      apply (in_map fst) in Hin. exact Hin.
    + f_equal. now apply IH.
Qed.

(** ** The frames and their concatenation *)

Lemma len_head (i : Z) (df : DataFrame) :
  len (head i df) = Nat.min (head_count i (len df)) (len df).
Proof. unfold len, head. simpl. apply length_firstn. Qed.

Lemma index_dfa (df : DataFrame) (i : Z) :
  index (dfa df i) = firstn (head_count i (len df)) (index df).
Proof. reflexivity. Qed.

Lemma frame_schema_NoDup (df : DataFrame) :
  NoDup (columns df) -> NoDup (map fst (frame_schema df)).
Proof. apply assoc_set_NoDup. Qed.

Lemma frame_column_dtype (df : DataFrame) (i j : Z) (c : string) (s : Series) :
  dtype (frame_column df i c s) = dtype (frame_column df j c s).
Proof. unfold frame_column. now destruct (String.eqb _ _). Qed.

(** The frame of one step, column by column. *)
Lemma dfa_closed (df : DataFrame) (i : Z) :
  NoDup (columns df) ->
  dfa df i
  = mkDF (index (head i df))
         (map (fun cs => (fst cs, frame_column df i (fst cs) (snd cs))) (frame_schema df)).
Proof.
  intros Hnd. unfold dfa, assign_scalar, setitem. f_equal.
  unfold head at 2. cbn [data].
  now rewrite (assoc_set_map _ _ _ (mkSeries int64 [])).
Qed.

Lemma index_concat (a b : DataFrame) : index (concat a b) = index a ++ index b.
Proof.
  unfold concat, no_shape.
  destruct (index a) eqn:Ha, (data a) eqn:Da; simpl; auto;
    destruct (index b) eqn:Hb, (data b) eqn:Db; simpl;
    rewrite ?Ha, ?Hb, ?app_nil_r; auto.
Qed.

Lemma filter_known (l : list string) :
  filter (fun c => negb (mem c l)) l = [].
Proof.
  assert (H : forall l', incl l' l -> filter (fun c => negb (mem c l)) l' = []).
  { induction l' as [|c l' IH]; simpl; intros Hincl; auto.
    assert (E : mem c l = true) by (apply mem_In, Hincl; now left).
    rewrite E. simpl. apply IH. intros x Hx. apply Hincl. now right. }
  apply H, incl_refl.
Qed.

(** Concatenating two frames with the same labelled columns puts each
    column of the second under the same column of the first. *)
Lemma concat_same_schema (base : list (string * Series))
  (fa fb : string -> Series -> Series) (ia ib : list Z) :
  NoDup (map fst base) -> base <> [] ->
  concat (mkDF ia (map (fun cs => (fst cs, fa (fst cs) (snd cs))) base))
         (mkDF ib (map (fun cs => (fst cs, fb (fst cs) (snd cs))) base))
  = mkDF (ia ++ ib)
         (map (fun cs => (fst cs, series_concat (fa (fst cs) (snd cs)) (fb (fst cs) (snd cs))))
              base).
Proof.
  intros Hnd Hne. unfold concat.
  assert (Hshape : forall f i,
            no_shape (mkDF i (map (fun cs => (fst cs, f (fst cs) (snd cs))) base)) = false).
  { intros f i. unfold no_shape. simpl. destruct base; [contradiction|].
    now destruct i. }
  rewrite !Hshape. unfold columns. cbn [index data].
  rewrite !map_fst_map, filter_known, app_nil_r, map_map. f_equal.
  apply map_ext_in. intros [c s] Hin. cbn [fst snd].
  unfold column_or_missing, getitem. cbn [data].
  rewrite !lookup_map, (In_lookup c s base Hnd Hin). reflexivity.
Qed.

Lemma series_eta (s : Series) : mkSeries (dtype s) (values s) = s.
Proof. now destruct s. Qed.

Lemma stacked_one (df : DataFrame) (i : Z) :
  NoDup (columns df) -> stacked df [i] = dfa df i.
Proof.
  intros Hnd. rewrite dfa_closed by assumption. unfold stacked. simpl.
  rewrite app_nil_r. f_equal. apply map_ext. intros [c s]. cbn [fst snd].
  rewrite app_nil_r, (frame_column_dtype df 0 i). now rewrite series_eta.
Qed.

Lemma stacked_snoc (df : DataFrame) (done : list Z) (i : Z) :
  NoDup (columns df) ->
  concat (stacked df done) (dfa df i) = stacked df (done ++ [i]).
Proof.
  intros Hnd. rewrite dfa_closed by assumption. unfold stacked.
  rewrite (concat_same_schema (frame_schema df)
             (fun c s => mkSeries (dtype (frame_column df 0 c s))
                           (flat_map (fun j => values (frame_column df j c s)) done))
             (frame_column df i)).
  - rewrite !flat_map_app. simpl. rewrite app_nil_r. f_equal.
    apply map_ext. intros [c s]. cbn [fst snd]. unfold series_concat. cbn [dtype values].
    rewrite (frame_column_dtype df i 0), dtype_eqb_refl, flat_map_app. simpl.
    now rewrite app_nil_r.
  - now apply frame_schema_NoDup.
  - apply assoc_set_nonempty.
Qed.

Lemma expand_loop_stacked (df : DataFrame) (ks : list Z) :
  NoDup (columns df) ->
  forall done,
    fold_left (fun plot_ready_df i => concat plot_ready_df (dfa df i)) ks (stacked df done)
    = stacked df (done ++ ks).
Proof.
  intros Hnd. induction ks as [|i ks IH]; intros done; simpl.
  - now rewrite app_nil_r.
  - rewrite stacked_snoc, IH, <- app_assoc by assumption. reflexivity.
Qed.

(** Lines 180-188 in closed form: no frame at all when the range is
    empty, the frames of the range in order otherwise. *)
Lemma expand_stacked (df : DataFrame) (start_point : Z) :
  NoDup (columns df) ->
  expand df start_point
  = match arange start_point (Z.of_nat (len df) + 1) with
    | [] => empty_df
    | ks => stacked df ks
    end.
Proof.
  intros Hnd. unfold expand.
  destruct (arange start_point (Z.of_nat (len df) + 1)) as [|k ks]; auto.
  cbn [fold_left]. unfold concat at 2. cbn [no_shape empty_df index data].
  rewrite <- (stacked_one df k Hnd), expand_loop_stacked by assumption. reflexivity.
Qed.

Lemma index_expand (df : DataFrame) (start_point : Z) :
  index (expand df start_point)
  = flat_map (fun i => firstn (head_count i (len df)) (index df))
             (arange start_point (Z.of_nat (len df) + 1)).
Proof.
  unfold expand.
  assert (H : forall ks acc,
            index (fold_left (fun plot_ready_df i => concat plot_ready_df (dfa df i)) ks acc)
            = index acc ++ flat_map (fun i => firstn (head_count i (len df)) (index df)) ks).
  { induction ks as [|i ks IH]; intros acc; simpl.
    - now rewrite app_nil_r.
    - rewrite IH, index_concat, index_dfa, <- app_assoc. reflexivity. }
  now rewrite H.
Qed.

(** In an aligned frame every column of the frame of step [i] has the
    length of that frame. *)
Lemma frame_column_length (df : DataFrame) (i : Z) (c : string) (s : Series) :
  aligned df -> In (c, s) (frame_schema df) ->
  List.length (values (frame_column df i c s)) = len (head i df).
Proof.
  intros [_ Hlen] Hin. unfold frame_column.
  destruct (String.eqb animation_frame_col c) eqn:E; cbn [values].
  - apply repeat_length.
  - apply In_assoc_set in Hin. destruct Hin as [->|Hin].
    + now rewrite String.eqb_refl in E.
    + rewrite Forall_forall in Hlen. specialize (Hlen (c, s) Hin). simpl in Hlen.
      unfold series_firstn. cbn [values].
      now rewrite length_firstn, Hlen, len_head.
Qed.

Lemma getitem_stacked_frame (df : DataFrame) (ks : list Z) :
  getitem (stacked df ks) animation_frame_col
  = Some (mkSeries int64
            (flat_map (fun i => repeat (CInt i) (len (head i df))) ks)).
Proof.
  unfold getitem, stacked, frame_schema. cbn [data].
  rewrite (lookup_map
             (fun c s => mkSeries (dtype (frame_column df 0 c s))
                           (flat_map (fun i => values (frame_column df i c s)) ks))).
  rewrite lookup_assoc_set_same. reflexivity.
Qed.

(** The rows of step [k] in the concatenation are the frame of step
    [k]. *)
Lemma rows_of_frame_stacked (df : DataFrame) (ks : list Z) (k : Z) :
  aligned df -> NoDup ks -> In k ks ->
  rows_of_frame k (stacked df ks) = dfa df k.
Proof.
  intros Hal Hnd Hin. rewrite dfa_closed by apply Hal.
  unfold rows_of_frame, frame_mask. rewrite getitem_stacked_frame. cbn [values].
  unfold stacked. cbn [index data]. f_equal.
  - transitivity (flat_map (fun i => if (i =? k)%Z then index (head i df) else []) ks).
    + exact (select_blocks (fun i => index (head i df)) k ks).
    + now apply (flat_map_pick (fun i => index (head i df))).
  - rewrite map_map. apply map_ext_in. intros [c s] Hcs. cbn [fst snd dtype values].
    assert (E : forall i, repeat (CInt i) (len (head i df))
                          = repeat (CInt i) (List.length (values (frame_column df i c s)))).
    { intros i. now rewrite (frame_column_length df i c s Hal Hcs). }
    rewrite (flat_map_ext _ _ E).
    rewrite (select_blocks (fun i => values (frame_column df i c s))).
    rewrite (flat_map_pick (fun i => values (frame_column df i c s))) by assumption.
    now rewrite (frame_column_dtype df 0 k), series_eta.
Qed.

(** ** The frame the prefixes are taken from *)

Lemma length_take {A : Type} (d : A) (idx : list nat) (l : list A) :
  List.length (take d idx l) = List.length idx.
Proof. apply length_map. Qed.

Lemma aligned_take (idx : list nat) (df : DataFrame) :
  NoDup (columns df) -> aligned (df_take idx df).
Proof.
  intros Hnd. split.
  - unfold columns, df_take. cbn [data].
    rewrite (map_fst_map (fun _ s => series_take idx s)). exact Hnd.
  - apply Forall_forall. intros [c s] Hin. unfold df_take in Hin. cbn [data] in Hin.
    apply in_map_iff in Hin. destruct Hin as [[c' s'] [[= <- <-] _]].
    unfold len, df_take. cbn [index snd series_take values].
    now rewrite !length_take.
Qed.



Lemma getitem_dfa_frame (df : DataFrame) (i : Z) :
  getitem (dfa df i) animation_frame_col
  = Some (mkSeries int64 (repeat (CInt i) (len (head i df)))).
Proof. apply lookup_assoc_set_same. Qed.

Lemma getitem_dfa_other (df : DataFrame) (i : Z) (c : string) :
  c <> animation_frame_col ->
  getitem (dfa df i) c
  = option_map (series_firstn (head_count i (len df))) (getitem df c).
Proof.
  intros Hne. unfold getitem, dfa, assign_scalar, setitem. cbn [data].
  rewrite lookup_assoc_set_other by assumption.
  apply (lookup_map (fun _ s => series_firstn (head_count i (len df)) s)).
Qed.

Lemma getitem_stacked_other (df : DataFrame) (ks : list Z) (c : string) (s : Series) :
  c <> animation_frame_col -> getitem df c = Some s ->
  getitem (stacked df ks) c
  = Some (mkSeries (dtype s)
            (flat_map (fun i => firstn (head_count i (len df)) (values s)) ks)).
Proof.
  intros Hne Hs. unfold getitem, stacked, frame_schema. cbn [data].
  rewrite (lookup_map
             (fun c s => mkSeries (dtype (frame_column df 0 c s))
                           (flat_map (fun i => values (frame_column df i c s)) ks))).
  rewrite lookup_assoc_set_other by assumption.
  unfold getitem in Hs. rewrite Hs. cbn [option_map]. unfold frame_column.
  assert (E : String.eqb animation_frame_col c = false).
  { apply String.eqb_neq. congruence. }
  rewrite E. reflexivity.
Qed.

Section FrameFacts.

Variable argsort : list Timestamp -> list nat.

Lemma ordered_df_aligned (df src : DataFrame) (x_col : string) :
  aligned df -> ordered_df argsort df x_col = Ok src -> aligned src.
Proof.
  intros Hal. unfold ordered_df, sort_values.
  destruct (getitem df x_col) as [x|]; try discriminate.
  destruct (is_datetime64_any_dtype x).
  - intros [= <-]. apply aligned_take, Hal.
  - now intros [= <-].
Qed.

(** With no animation column chosen, the frames are built from the
    ordered frame. *)
Lemma plot_ready_synthetic (df src : DataFrame) (x_col : string) (start_point : Z) :
  ordered_df argsort df x_col = Ok src ->
  plot_ready argsort df x_col "None" start_point
  = Ok (expand src start_point, animation_frame_col).
Proof. intros H. unfold plot_ready. simpl. now rewrite H. Qed.

End FrameFacts.

Lemma expand_in_range (df : DataFrame) (start_point : Z) :
  NoDup (columns df) -> (start_point <= Z.of_nat (len df))%Z ->
  expand df start_point = stacked df (arange start_point (Z.of_nat (len df) + 1)).
Proof.
  intros Hnd Hle. rewrite expand_stacked by assumption.
  rewrite arange_cons by lia. reflexivity.
Qed.

Lemma prefix_blocks {A : Type} (l : list A) (n : nat) (a b : Z) :
  (0 <= a)%Z -> (b <= Z.of_nat n + 1)%Z ->
  flat_map (fun i => firstn (head_count i n) l) (arange a b)
  = flat_map (fun i => firstn (Z.to_nat i) l) (arange a b).
Proof.
  intros Ha Hb. apply flat_map_ext_in. intros i Hi. apply In_arange in Hi.
  now destruct (head_count_in_range i n) as [-> _]; [lia|].
Qed.

Lemma len_head_in_range (df : DataFrame) (i : Z) :
  (0 <= i <= Z.of_nat (len df))%Z -> len (head i df) = Z.to_nat i.
Proof.
  intros H. rewrite len_head.
  destruct (head_count_in_range i (len df) H) as [-> Hle]. lia.
Qed.

(** ** The frames of the animation (lines 169-190) *)

Section FrameClaims.

Variable argsort : list Timestamp -> list nat.

(** C1: with [src] the frame after the optional sort and
    [1 <= start_point <= len src], the frame handed to the renderer is
    made of the blocks of the steps [start_point .. len src] in increasing
    order, the block of step [k] being the first [k] rows of [src] with
    [k] in the frame column; and the rows whose frame column is [k] are
    exactly the first [k] rows of [src], in the order of [src]. *)
Theorem cumulative_prefix_law (df src : DataFrame) (x_col : string) (start_point : Z) :
  aligned df ->
  ordered_df argsort df x_col = Ok src ->
  (1 <= start_point <= Z.of_nat (len src))%Z ->
  let ks := arange start_point (Z.of_nat (len src) + 1) in
  exists plot_ready_df,
    plot_ready argsort df x_col "None" start_point
    = Ok (plot_ready_df, animation_frame_col) /\
    index plot_ready_df = flat_map (fun k => firstn (Z.to_nat k) (index src)) ks /\
    cells plot_ready_df animation_frame_col
    = flat_map (fun k => repeat (CInt k) (Z.to_nat k)) ks /\
    (forall c s, getitem src c = Some s -> c <> animation_frame_col ->
       getitem plot_ready_df c
       = Some (mkSeries (dtype s) (flat_map (fun k => firstn (Z.to_nat k) (values s)) ks))) /\
    (forall k, (start_point <= k <= Z.of_nat (len src))%Z ->
       let shown := rows_of_frame k plot_ready_df in
       index shown = firstn (Z.to_nat k) (index src) /\
       cells shown animation_frame_col = repeat (CInt k) (Z.to_nat k) /\
       (forall c s, getitem src c = Some s -> c <> animation_frame_col ->
          getitem shown c = Some (series_firstn (Z.to_nat k) s))).
Proof.
  intros Hal Hord Hrange ks.
  assert (Hsrc : aligned src) by now apply (ordered_df_aligned argsort df src x_col).
  assert (Hnd : NoDup (columns src)) by apply Hsrc.
  exists (expand src start_point).
  split; [now apply plot_ready_synthetic|].
  split; [rewrite index_expand; apply prefix_blocks; lia|].
  rewrite expand_in_range by (auto; lia). fold ks.
  split; [|split].
  - unfold cells. rewrite getitem_stacked_frame. cbn [values].
    apply flat_map_ext_in. intros i Hi. apply In_arange in Hi.
    now rewrite len_head_in_range by lia.
  - intros c s Hs Hne. rewrite (getitem_stacked_other src ks c s Hne Hs).
    do 2 f_equal. apply prefix_blocks; lia.
  - intros k Hk shown. subst shown.
    rewrite rows_of_frame_stacked;
      [|assumption|apply NoDup_arange|apply In_arange; lia].
    destruct (head_count_in_range k (len src)) as [Hc _]; [lia|].
    split; [|split].
    + now rewrite index_dfa, Hc.
    + unfold cells. rewrite getitem_dfa_frame. cbn [values].
      now rewrite len_head_in_range by lia.
    + intros c s Hs Hne. now rewrite getitem_dfa_other, Hs, Hc.
Qed.

Lemma sum_prefix_lengths {A : Type} (l : list A) (ks : list Z) :
  (forall k, In k ks -> (0 <= k <= Z.of_nat (List.length l))%Z) ->
  Z.of_nat (List.length (flat_map (fun k => firstn (head_count k (List.length l)) l) ks))
  = sum_Z ks.
Proof.
  induction ks as [|k ks IH]; simpl; intros H; auto.
  rewrite length_app, length_firstn, Nat2Z.inj_add, IH.
  - pose proof (H k (or_introl eq_refl)) as Hk.
    destruct (head_count_in_range k (List.length l) Hk) as [-> Hle]. lia.
  - intros j Hj. apply H. now right.
Qed.

(** C7: for [1 <= start_point <= len src] the frame handed to the
    renderer has [start_point + ... + len src] rows, that is
    [(len src - start_point + 1) * (start_point + len src) / 2]. *)
Theorem expanded_row_count (df src : DataFrame) (x_col : string) (start_point : Z) :
  ordered_df argsort df x_col = Ok src ->
  (1 <= start_point <= Z.of_nat (len src))%Z ->
  exists plot_ready_df,
    plot_ready argsort df x_col "None" start_point
    = Ok (plot_ready_df, animation_frame_col) /\
    Z.of_nat (len plot_ready_df)
    = sum_Z (arange start_point (Z.of_nat (len src) + 1)) /\
    (2 * Z.of_nat (len plot_ready_df)
     = (Z.of_nat (len src) - start_point + 1) * (start_point + Z.of_nat (len src)))%Z.
Proof.
  intros Hord Hrange. exists (expand src start_point).
  split; [now apply plot_ready_synthetic|].
  assert (Hlen : Z.of_nat (len (expand src start_point))
                 = sum_Z (arange start_point (Z.of_nat (len src) + 1))).
  { unfold len at 1. rewrite index_expand. apply sum_prefix_lengths.
    intros k Hk. apply In_arange in Hk. unfold len in *. lia. }
  split; [exact Hlen|]. rewrite Hlen.
  pose proof (sum_arange (Z.to_nat (Z.of_nat (len src) + 1 - start_point)) start_point) as H.
  replace (start_point + Z.of_nat (Z.to_nat (Z.of_nat (len src) + 1 - start_point)))%Z
    with (Z.of_nat (len src) + 1)%Z in H by lia.
  rewrite H. rewrite Z2Nat.id by lia. ring.
Qed.

(** C2, as amended: a starting point beyond the last row raises nothing
    and is not clamped; the loop does not run and the frame handed to the
    renderer is the empty frame, without rows, columns or frames. *)
Theorem start_beyond_rows_gives_empty (df src : DataFrame) (x_col : string)
  (start_point : Z) :
  ordered_df argsort df x_col = Ok src ->
  (Z.of_nat (len src) < start_point)%Z ->
  plot_ready argsort df x_col "None" start_point = Ok (empty_df, animation_frame_col).
Proof.
  intros Hord Hgt. rewrite (plot_ready_synthetic argsort df src x_col start_point Hord).
  unfold expand. now rewrite arange_empty by lia.
Qed.

(** C9: when an animation column is chosen (any entry of the select box
    other than ["None"]), the renderer gets the frame itself and that
    column as the frame key; nothing is sorted, repeated or added. *)
Theorem natural_column_passthrough (df : DataFrame) (x_col animation_frame : string)
  (start_point : Z) :
  animation_frame <> "None" ->
  plot_ready argsort df x_col animation_frame start_point = Ok (df, animation_frame).
Proof.
  intros Hne. unfold plot_ready.
  apply String.eqb_neq in Hne. now rewrite Hne.
Qed.

End FrameClaims.

(** ** Sorting by a datetime column (lines 175-177) *)

Section InsertionSort.

Variable A : Type.
Variable before : A -> A -> bool.
Variable R : A -> A -> Prop.
Hypothesis before_R : forall x y, before x y = true -> R x y.
Hypothesis not_before_R : forall x y, before x y = false -> R y x.





End InsertionSort.









Section SortClaims.

Variable argsort : list Timestamp -> list nat.



End SortClaims.

(** ** The frames on the sample data *)

Lemma cumulative_prefix_law_witness :
  aligned df_dates /\
  ordered_df argsort_stable df_dates "when" = Ok df_dates_sorted /\
  exists plot_ready_df,
    plot_ready argsort_stable df_dates "when" "None" 2
    = Ok (plot_ready_df, animation_frame_col) /\
    index (rows_of_frame 2 plot_ready_df) = firstn 2 (index df_dates_sorted) /\
    cells (rows_of_frame 3 plot_ready_df) "y" = [CInt 1; CInt 2; CInt 3].
Proof.
  split; [exact df_dates_aligned|]. split; [reflexivity|].
  destruct (cumulative_prefix_law argsort_stable df_dates df_dates_sorted "when" 2)
    as [plot_ready_df [Hrun [_ [_ [_ Hframes]]]]].
  - exact df_dates_aligned.
  - reflexivity.
  - simpl. lia.
  - exists plot_ready_df. split; [exact Hrun|]. split.
    + apply (Hframes 2%Z). simpl. lia.
    + destruct (Hframes 3%Z) as [_ [_ Hcols]]; [simpl; lia|].
      unfold cells.
      rewrite (Hcols "y" (mkSeries int64 [CInt 1; CInt 2; CInt 3])); [reflexivity|reflexivity|].
      discriminate.
Defined.

Lemma expanded_row_count_witness :
  ordered_df argsort_stable (df_rows 7) "y" = Ok (df_rows 7) /\
  exists plot_ready_df,
    plot_ready argsort_stable (df_rows 7) "y" "None" 5
    = Ok (plot_ready_df, animation_frame_col) /\
    Z.of_nat (len plot_ready_df) = sum_Z [5; 6; 7]%Z /\
    (2 * Z.of_nat (len plot_ready_df) = (7 - 5 + 1) * (5 + 7))%Z.
Proof.
  split; [reflexivity|].
  apply (expanded_row_count argsort_stable (df_rows 7) (df_rows 7) "y" 5).
  - reflexivity.
  - simpl. lia.
Defined.

(** The example of the row count: steps 5, 6 and 7 make 18 rows. *)
Example eighteen_rows : len (expand (df_rows 7) 5) = 18%nat.
Proof. reflexivity. Qed.

(** Ten rows from step 5: the steps 5 to 10, the first of 5 rows and the
    last of all 10. *)
Example ten_rows_from_five :
  let plot_ready_df := expand (df_rows 10) 5 in
  map (fun k => len (rows_of_frame k plot_ready_df)) (arange 4 12)
  = [0; 5; 6; 7; 8; 9; 10; 0]%nat /\
  rows_of_frame 10 plot_ready_df = dfa (df_rows 10) 10.
Proof. split; reflexivity. Qed.

Lemma start_beyond_rows_gives_empty_witness :
  ordered_df argsort_stable (df_rows 7) "y" = Ok (df_rows 7) /\
  (Z.of_nat (len (df_rows 7)) < 8)%Z /\
  plot_ready argsort_stable (df_rows 7) "y" "None" 8 = Ok (empty_df, animation_frame_col).
Proof.
  split; [reflexivity|]. split; [simpl; lia|].
  apply (start_beyond_rows_gives_empty argsort_stable (df_rows 7) (df_rows 7) "y" 8).
  - reflexivity.
  - simpl. lia.
Defined.

(** C2 as the claim states it fails: starting at 20 on ten rows gives no
    frame at all, not the single frame 10 of all ten rows; the same
    happens at a starting point the slider offers, 8 on seven rows. *)
Lemma start_beyond_rows_is_not_clamped :
  plot_ready argsort_stable (df_rows 10) "y" "None" 20
  = Ok (empty_df, animation_frame_col) /\
  len (rows_of_frame 10 empty_df) = 0%nat /\
  len (dfa (df_rows 10) 10) = 10%nat /\
  slider_range (df_rows 7) 8 /\
  plot_ready argsort_stable (df_rows 7) "y" "None" 8
  = Ok (empty_df, animation_frame_col).
Proof.
  repeat split; try reflexivity; vm_compute; discriminate.
Qed.

Lemma natural_column_passthrough_witness :
  plot_ready argsort_stable df_dates "when" "when" 5 = Ok (df_dates, "when").
Proof.
  apply (natural_column_passthrough argsort_stable df_dates "when" "when" 5).
  discriminate.
Defined.

(** The entry ["None"] of the select box always asks for the frames by
    row, also on a frame that has a column of that name. *)
Remark none_is_reserved (argsort : list Timestamp -> list nat) (df src : DataFrame)
  (x_col : string) (start_point : Z) :
  ordered_df argsort df x_col = Ok src ->
  plot_ready argsort df x_col "None" start_point
  = Ok (expand src start_point, animation_frame_col).
Proof. apply plot_ready_synthetic. Qed.


(** The example of the sort: dates out of order are sorted first, so
    step 1 shows the row of the earliest date. *)
Example earliest_date_first :
  exists plot_ready_df,
    plot_ready argsort_stable df_dates "when" "None" 1
    = Ok (plot_ready_df, animation_frame_col) /\
    cells (rows_of_frame 1 plot_ready_df) "when" = [CTime (Ts 20200101)].
Proof. eexists. split; reflexivity. Qed.


(** Up to 17 rows the default sort is an insertion sort, which keeps the
    rows of equal date in their order. *)
Example seventeen_equal_dates_keep_order :
  nargsort (datetime_keys (when_same_day 17)) = seq 0 17 /\
  ties_in_order (datetime_keys (when_same_day 17))
                (nargsort (datetime_keys (when_same_day 17))) = true.
Proof. split; vm_compute; reflexivity. Qed.

(** Missing dates go last, in their order. *)
Example missing_dates_last :
  nargsort [Ts 3; NaT; Ts 1; Ts 2; NaT; Ts 0] = [5; 2; 3; 0; 1; 4]%nat.
Proof. vm_compute. reflexivity. Qed.

(** * Further properties of the analysis and of the frames *)

(** ** What the datetime list holds *)

Section ClassifierExtras.

Variable parse_ts : list Cell -> Cell -> option Timestamp.
Variable result_kind : list Cell -> Converted.

Lemma coercible_inv (df : DataFrame) (c : string) :
  coercible parse_ts result_kind df c = true ->
  exists s t, getitem df c = Some s /\ dtype s = DObject /\
              to_datetime parse_ts result_kind s = Some t /\ coerce_col parse_ts result_kind s = t.
Proof.
  unfold coercible, coerce_col. destruct (getitem df c) as [s|]; try discriminate.
  destruct (dtype_eqb (dtype s) DObject) eqn:Hobj; try discriminate.
  destruct (to_datetime parse_ts result_kind s) as [t|] eqn:Ht; try discriminate.
  intros _. exists s, t. repeat split; auto.
  - now apply dtype_eqb_eq.
  - now rewrite Hobj, Ht.
Qed.

(** Where a listed column comes from: it is a datetime column of the
    analysed frame, or it is what [pd.to_datetime] returned for a text
    column of a frame without datetime column. *)
Lemma listed_column (df : DataFrame) (c : string) :
  NoDup (columns df) ->
  In c (cl_datetime_cols (classify parse_ts result_kind df)) ->
  exists s, getitem (cl_df (classify parse_ts result_kind df)) c = Some s /\
            (is_datetime64_any_dtype s = true \/
             (native_datetime_cols df = [] /\
              exists s0, getitem df c = Some s0 /\ dtype s0 = DObject /\
                         to_datetime parse_ts result_kind s0 = Some s)).
Proof.
  intros Hnd. rewrite classify_closed by assumption.
  destruct (native_datetime_cols df) as [|d ds] eqn:Hn;
    cbn [cl_df cl_datetime_cols]; intros Hc.
  - apply filter_In in Hc. destruct Hc as [_ Hc].
    apply coercible_inv in Hc. destruct Hc as [s [t [Hs [Hobj [Ht Hco]]]]].
    exists t. rewrite getitem_map_cols, Hs. cbn [option_map]. rewrite Hco.
    split; auto. right. split; auto. now exists s.
  - rewrite <- Hn in Hc. apply In_native_datetime_cols in Hc.
    destruct Hc as [s [Hs Hd]]. exists s. auto.
Qed.

(** When the accepted text columns come back as datetime64 columns, a
    listed column is a datetime column of the analysed frame. *)
Lemma listed_datetime (df : DataFrame) (c : string) :
  NoDup (columns df) ->
  returns_datetime64 parse_ts result_kind df ->
  In c (cl_datetime_cols (classify parse_ts result_kind df)) ->
  exists s, getitem (cl_df (classify parse_ts result_kind df)) c = Some s /\
            is_datetime64_any_dtype s = true.
Proof.
  intros Hnd Hret Hc. destruct (listed_column df c Hnd Hc) as [s [Hs [Hd|[_ [s0 [Hs0 [Hobj Ht]]]]]]].
  - now exists s.
  - exists s. split; auto. exact (Hret c s0 s Hs0 Hobj Ht).
Qed.

(** X1: after the analysis no label is listed twice in the datetime
    list and every listed label is a column of the frame; that column has
    a datetime64 dtype, or it is the object column [pd.to_datetime]
    returned for a text column (lines 95-98 do not look at the dtype that
    comes back).  When the accepted text columns all come back as
    datetime64 columns, every listed column is a datetime64 column. *)
Theorem datetime_cols_listed (df : DataFrame) :
  NoDup (columns df) ->
  NoDup (cl_datetime_cols (classify parse_ts result_kind df)) /\
  (forall c, In c (cl_datetime_cols (classify parse_ts result_kind df)) ->
     exists s, getitem (cl_df (classify parse_ts result_kind df)) c = Some s /\
               (is_datetime64_any_dtype s = true \/
                (dtype s = DObject /\ native_datetime_cols df = [] /\
                 exists s0, getitem df c = Some s0 /\ dtype s0 = DObject /\
                            to_datetime parse_ts result_kind s0 = Some s))) /\
  (returns_datetime64 parse_ts result_kind df ->
   forall c, In c (cl_datetime_cols (classify parse_ts result_kind df)) ->
     exists s, getitem (cl_df (classify parse_ts result_kind df)) c = Some s /\
               is_datetime64_any_dtype s = true).
Proof.
  intros Hnd. split; [|split].
  - rewrite classify_closed by assumption.
    destruct (native_datetime_cols df) as [|d ds] eqn:Hn; cbn [cl_datetime_cols].
    + now apply NoDup_filter.
    + rewrite <- Hn. now apply NoDup_filter.
  - intros c Hc.
    destruct (listed_column df c Hnd Hc) as [s [Hs [Hd|[Hn [s0 [Hs0 [Hobj Ht]]]]]]].
    + exists s. auto.
    + exists s. split; auto.
      destruct (is_datetime64_any_dtype s) eqn:Hd; auto. right.
      split; [|split; [exact Hn|now exists s0]].
      pose proof (to_datetime_dtype parse_ts result_kind s0 s Ht) as [Hdt _].
      unfold is_datetime64_any_dtype in Hd. rewrite Hdt in *.
      now destruct (result_kind (values s0)).
  - intros Hret c Hc. now apply listed_datetime.
Qed.

(** X2: no column is both in the numeric list and in the datetime
    list. *)
Theorem numeric_and_datetime_disjoint (df : DataFrame) (c : string) :
  NoDup (columns df) ->
  In c (cl_numeric_cols (classify parse_ts result_kind df)) ->
  ~ In c (cl_datetime_cols (classify parse_ts result_kind df)).
Proof.
  intros Hnd. rewrite classify_closed by assumption.
  assert (Hnum : In c (numeric_cols df) ->
                 exists s, getitem df c = Some s /\ (dtype s = int64 \/ dtype s = float64)).
  { intros H. apply In_numeric_cols in H. destruct H as [s [Hin Hd]].
    exists s. split; auto. now apply In_lookup. }
  destruct (native_datetime_cols df) as [|d ds] eqn:Hn;
    cbn [cl_numeric_cols cl_datetime_cols]; intros Hc Hdt;
    destruct (Hnum Hc) as [s [Hs Hd]].
  - apply filter_In in Hdt. destruct Hdt as [_ Hdt].
    apply coercible_inv in Hdt. destruct Hdt as [s' [t [Hs' [Hobj _]]]].
    rewrite Hs in Hs'. injection Hs' as <-.
    rewrite Hobj in Hd. destruct Hd; discriminate.
  - rewrite <- Hn in Hdt. apply In_native_datetime_cols in Hdt.
    destruct Hdt as [s' [Hs' Hdt]]. rewrite Hs in Hs'. injection Hs' as <-.
    unfold is_datetime64_any_dtype in Hdt.
    destruct Hd as [Hd|Hd]; rewrite Hd in Hdt; discriminate.
Qed.

(** X3: when the frame has no datetime column, a text column that
    [pd.to_datetime] accepts is replaced in the frame by the column it
    returns, whatever the dtype of that column (naive or aware
    datetime64, or object), with as many cells as before, and its label
    is listed. *)
Theorem parseable_column_converted (df : DataFrame) (c : string) (s t : Series) :
  NoDup (columns df) ->
  native_datetime_cols df = [] ->
  getitem df c = Some s -> dtype s = DObject ->
  to_datetime parse_ts result_kind s = Some t ->
  getitem (cl_df (classify parse_ts result_kind df)) c = Some t /\
  In c (cl_datetime_cols (classify parse_ts result_kind df)) /\
  dtype t = converted_dtype (result_kind (values s)) /\
  List.length (values t) = List.length (values s).
Proof.
  intros Hnd Hn Hs Hobj Hto. rewrite classify_closed by assumption. rewrite Hn.
  cbn [cl_df cl_datetime_cols].
  split; [|split].
  - rewrite getitem_map_cols, Hs. cbn [option_map]. f_equal.
    unfold coerce_col. rewrite Hobj, Hto. reflexivity.
  - apply filter_In. split; [now apply getitem_In_columns in Hs|].
    unfold coercible. rewrite Hs, Hobj, Hto. reflexivity.
  - exact (to_datetime_dtype parse_ts result_kind s t Hto).
Qed.

Lemma coerce_col_length (s : Series) :
  List.length (values (coerce_col parse_ts result_kind s)) = List.length (values s).
Proof.
  unfold coerce_col. destruct (dtype_eqb (dtype s) DObject); auto.
  destruct (to_datetime parse_ts result_kind s) as [t|] eqn:Ht; auto.
  now apply to_datetime_dtype in Ht.
Qed.

Lemma coerce_col_typed (s : Series) :
  well_typed s -> well_typed (coerce_col parse_ts result_kind s).
Proof.
  unfold coerce_col. destruct (dtype_eqb (dtype s) DObject); auto.
  unfold to_datetime. destruct (traverse (parse_ts (values s)) (values s)) as [ts|]; auto.
  intros _. unfold well_typed. cbn [dtype values].
  apply forallb_forall. intros x Hx. apply in_map_iff in Hx.
  destruct Hx as [t [<- _]]. now destruct (result_kind (values s)).
Qed.

(** X4: the analysis keeps a frame well formed: unique labels, columns
    as long as the index, cells of the dtype of their column. *)
Theorem classify_keeps_wf (df : DataFrame) :
  wf_df df -> wf_df (cl_df (classify parse_ts result_kind df)).
Proof.
  intros [[Hnd Hlen] Hty]. rewrite classify_closed by assumption.
  destruct (native_datetime_cols df) as [|d ds]; cbn [cl_df].
  - split; [split|].
    + now rewrite columns_map_cols.
    + unfold map_cols, len. cbn [index data]. apply Forall_map.
      eapply Forall_impl; [|exact Hlen]. intros [c s] H. cbn [fst snd] in *.
      now rewrite coerce_col_length.
    + unfold map_cols. cbn [data]. apply Forall_map.
      eapply Forall_impl; [|exact Hty]. intros [c s] H. cbn [fst snd] in *.
      now apply coerce_col_typed.
  - repeat split; assumption.
Qed.

End ClassifierExtras.

Lemma datetime_cols_listed_witness :
  NoDup (cl_datetime_cols (classify sample_parse sample_kind df_offsets)) /\
  (exists s, getitem (cl_df (classify sample_parse sample_kind df_offsets)) "stamp" = Some s /\
             dtype s = DObject) /\
  (exists s, getitem (cl_df (classify sample_parse sample_kind df_text)) "when" = Some s /\
             is_datetime64_any_dtype s = true).
Proof.
  assert (Hnd : NoDup (columns df_offsets)) by distinct_labels.
  assert (Hnd' : NoDup (columns df_text)) by distinct_labels.
  destruct (datetime_cols_listed sample_parse sample_kind df_offsets Hnd) as [H1 [H2 _]].
  destruct (datetime_cols_listed sample_parse sample_kind df_text Hnd') as [_ [_ H3]].
  split; [exact H1|]. split.
  - destruct (H2 "stamp") as [s [Hs Hd]]; [simpl; auto|].
    exists s. split; [exact Hs|].
    destruct Hd as [Hd|[Hd _]]; [|exact Hd].
    vm_compute in Hs. injection Hs as <-. discriminate.
  - apply H3; [exact df_text_returns_datetime64|]. simpl. auto.
Defined.

Lemma numeric_and_datetime_disjoint_witness :
  ~ In "y" (cl_datetime_cols (classify sample_parse sample_kind df_text)).
Proof.
  apply (numeric_and_datetime_disjoint sample_parse sample_kind df_text "y").
  - distinct_labels.
  - simpl. auto.
Defined.

Lemma parseable_column_converted_witness :
  getitem (cl_df (classify sample_parse sample_kind df_text)) "when" = Some when_dates /\
  In "when" (cl_datetime_cols (classify sample_parse sample_kind df_text)) /\
  dtype when_dates
  = converted_dtype
      (sample_kind [CStr "2020-01-03"; CStr "2020-01-01"; CStr "2020-01-02"]) /\
  List.length (values when_dates) = 3%nat.
Proof.
  apply (parseable_column_converted sample_parse sample_kind df_text "when"
           (mkSeries DObject [CStr "2020-01-03"; CStr "2020-01-01"; CStr "2020-01-02"])
           when_dates).
  - distinct_labels.
  - reflexivity.
  - reflexivity.
  - reflexivity.
  - reflexivity.
Defined.

Lemma classify_keeps_wf_witness : wf_df (cl_df (classify sample_parse sample_kind df_text)).
Proof. apply (classify_keeps_wf sample_parse sample_kind df_text). exact df_text_wf. Defined.

(** ** The choices of the controls (lines 116-154) *)

Section ControlExtras.

Variable parse_ts : list Cell -> Cell -> option Timestamp.
Variable result_kind : list Cell -> Converted.
Variable argsort : list Timestamp -> list nat.

Lemma getitem_of_column (df : DataFrame) (c : string) :
  In c (columns df) -> exists s, getitem df c = Some s.
Proof.
  intros Hin. unfold getitem. destruct (lookup c (data df)) as [s|] eqn:E.
  - now exists s.
  - apply lookup_None in E. contradiction.
Qed.

Lemma x_axis_option_is_column (df : DataFrame) (x_col : string) :
  NoDup (columns df) ->
  In x_col (x_axis_options (classify parse_ts result_kind df)) ->
  In x_col (columns (cl_df (classify parse_ts result_kind df))).
Proof.
  intros Hnd. unfold x_axis_options.
  destruct (cl_datetime_cols (classify parse_ts result_kind df)) as [|d ds] eqn:E; auto.
  rewrite <- E. intros Hin.
  destruct (listed_column parse_ts result_kind df x_col Hnd Hin) as [s [Hs _]].
  now apply getitem_In_columns in Hs.
Qed.

(** X5: whatever entry of the x-axis select box is chosen after the
    analysis, the lookup [df[x_col]] of line 175 finds its column: the
    frames are built and no [KeyError] is raised. *)
Theorem x_axis_choice_never_fails (df : DataFrame) (x_col animation_frame : string)
  (start_point : Z) :
  NoDup (columns df) ->
  In x_col (x_axis_options (classify parse_ts result_kind df)) ->
  exists plot_ready_df animation_col,
    plot_ready argsort (cl_df (classify parse_ts result_kind df)) x_col animation_frame start_point
    = Ok (plot_ready_df, animation_col).
Proof.
  intros Hnd Hin. apply x_axis_option_is_column in Hin; auto.
  destruct (getitem_of_column _ _ Hin) as [x Hx].
  unfold plot_ready. destruct (negb (String.eqb animation_frame "None")).
  - eauto.
  - unfold ordered_df, sort_values. rewrite Hx.
    destruct (is_datetime64_any_dtype x); cbn [bind]; eauto.
Qed.

(** X6: as soon as the analysis lists a column, the x axis can only be
    a listed column.  The frames by row are built from the rows sorted by
    it when it is a datetime64 column of the analysed frame, which is the
    case for every choice when the accepted text columns came back as
    datetime64 columns; a listed column that came back as an object
    column fails the test of line 175 and the rows are not sorted. *)
Theorem datetime_x_axis_is_sorted (df : DataFrame) (x_col : string) (start_point : Z) :
  NoDup (columns df) ->
  cl_datetime_cols (classify parse_ts result_kind df) <> [] ->
  In x_col (x_axis_options (classify parse_ts result_kind df)) ->
  exists x,
    getitem (cl_df (classify parse_ts result_kind df)) x_col = Some x /\
    (is_datetime64_any_dtype x = true ->
     plot_ready argsort (cl_df (classify parse_ts result_kind df)) x_col "None" start_point
     = Ok (expand (df_take (argsort (datetime_keys x))
                           (cl_df (classify parse_ts result_kind df))) start_point,
           animation_frame_col)) /\
    (is_datetime64_any_dtype x = false ->
     dtype x = DObject /\
     plot_ready argsort (cl_df (classify parse_ts result_kind df)) x_col "None" start_point
     = Ok (expand (cl_df (classify parse_ts result_kind df)) start_point,
           animation_frame_col)) /\
    (returns_datetime64 parse_ts result_kind df -> is_datetime64_any_dtype x = true).
Proof.
  intros Hnd Hne Hin. unfold x_axis_options in Hin.
  destruct (cl_datetime_cols (classify parse_ts result_kind df)) as [|d ds] eqn:E;
    [contradiction|].
  rewrite <- E in Hin.
  destruct (listed_column parse_ts result_kind df x_col Hnd Hin) as [x [Hx Horigin]].
  exists x. split; [exact Hx|]. split; [|split].
  - intros Hd. apply plot_ready_synthetic. unfold ordered_df, sort_values.
    now rewrite Hx, Hd.
  - intros Hd. split.
    + destruct Horigin as [Hd'|[_ [s0 [_ [_ Ht]]]]]; [congruence|].
      pose proof (to_datetime_dtype parse_ts result_kind s0 x Ht) as [Hdt _].
      unfold is_datetime64_any_dtype in Hd. rewrite Hdt in *.
      now destruct (result_kind (values s0)).
    + apply plot_ready_synthetic. unfold ordered_df. now rewrite Hx, Hd.
  - intros Hret.
    destruct (listed_datetime parse_ts result_kind df x_col Hnd Hret Hin) as [x' [Hx' Hd]].
    rewrite Hx in Hx'. now injection Hx' as <-.
Qed.

End ControlExtras.

Lemma x_axis_choice_never_fails_witness :
  exists plot_ready_df animation_col,
    plot_ready argsort_stable (cl_df (classify sample_parse sample_kind df_text)) "when" "None" 2
    = Ok (plot_ready_df, animation_col).
Proof.
  apply (x_axis_choice_never_fails sample_parse sample_kind argsort_stable df_text "when" "None" 2).
  - distinct_labels.
  - simpl. auto.
Defined.

Lemma datetime_x_axis_is_sorted_witness :
  exists x,
    getitem (cl_df (classify sample_parse sample_kind df_text)) "when" = Some x /\
    is_datetime64_any_dtype x = true /\
    plot_ready argsort_stable (cl_df (classify sample_parse sample_kind df_text)) "when" "None" 2
    = Ok (expand (df_take (argsort_stable (datetime_keys x))
                          (cl_df (classify sample_parse sample_kind df_text))) 2,
          animation_frame_col).
Proof.
  destruct (datetime_x_axis_is_sorted sample_parse sample_kind argsort_stable df_text "when" 2)
    as [x [Hx [Hsorted [_ Hret]]]].
  - distinct_labels.
  - discriminate.
  - simpl. auto.
  - exists x. split; [exact Hx|].
    pose proof (Hret df_text_returns_datetime64) as Hd. split; [exact Hd|].
    exact (Hsorted Hd).
Defined.

(** ** The slider of the starting point (lines 149-154) *)

Lemma slider_range_bounds (df : DataFrame) (s : Z) :
  slider_range df s <-> (start_slider_min <= s <= start_slider_max df)%Z.
Proof. reflexivity. Qed.

Lemma length_arange (a b : Z) : List.length (arange a b) = Z.to_nat (b - a).
Proof. unfold arange. now rewrite length_map, length_seq. Qed.

(** X8: the initial value of the slider lies within the bounds of the
    slider exactly when the frame has at least six rows. *)
Theorem slider_value_in_range_iff (df : DataFrame) :
  slider_range df (start_slider_value df) <-> (6 <= len df)%nat.
Proof.
  unfold slider_range, start_slider_value. lia.
Qed.

(** X9: on a frame of at least eleven rows every starting point the
    slider offers lies strictly within the rows, and the loop of line 185
    runs [len df - start_point + 1] times, at least twice. *)
Theorem slider_start_within_rows (df : DataFrame) (start_point : Z) :
  (11 <= len df)%nat ->
  slider_range df start_point ->
  (5 <= start_point < Z.of_nat (len df))%Z /\
  Z.of_nat (List.length (arange start_point (Z.of_nat (len df) + 1)))
  = (Z.of_nat (len df) - start_point + 1)%Z /\
  (2 <= List.length (arange start_point (Z.of_nat (len df) + 1)))%nat.
Proof.
  unfold slider_range. intros Hlen Hs. rewrite !length_arange.
  repeat split; lia.
Qed.

Lemma expand_nonempty (df : DataFrame) (start_point : Z) :
  (1 <= start_point <= Z.of_nat (len df))%Z -> index (expand df start_point) <> [].
Proof.
  intros H. rewrite index_expand, arange_cons by lia. cbn [flat_map].
  destruct (head_count_in_range start_point (len df)) as [-> _]; [lia|].
  destruct (index df) as [|l idx] eqn:E.
  - unfold len in H. rewrite E in H. simpl in H. lia.
  - replace (Z.to_nat start_point) with (S (Z.to_nat (start_point - 1))) by lia.
    discriminate.
Qed.

(** X10: the slider can lead to an animation without any frame exactly
    on the frames of fewer than ten rows. *)
Theorem slider_overshoots_iff (df : DataFrame) :
  (exists start_point, slider_range df start_point /\ expand df start_point = empty_df)
  <-> (len df < 10)%nat.
Proof.
  split.
  - intros [s [Hs He]]. destruct (Nat.lt_ge_cases (len df) 10) as [|Hge]; auto.
    exfalso. apply (expand_nonempty df s).
    + unfold slider_range in Hs. lia.
    + now rewrite He.
  - intros Hlt. exists 10%Z. split.
    + unfold slider_range. lia.
    + unfold expand. now rewrite arange_empty by lia.
Qed.

Lemma slider_start_within_rows_witness :
  (5 <= 7 < Z.of_nat (len (df_rows 12)))%Z /\
  Z.of_nat (List.length (arange 7 (Z.of_nat (len (df_rows 12)) + 1)))
  = (Z.of_nat (len (df_rows 12)) - 7 + 1)%Z /\
  (2 <= List.length (arange 7 (Z.of_nat (len (df_rows 12)) + 1)))%nat.
Proof.
  apply (slider_start_within_rows (df_rows 12) 7).
  - change (len (df_rows 12)) with 12%nat. lia.
  - unfold slider_range. change (len (df_rows 12)) with 12%nat. lia.
Defined.

(** ** The first selection of y columns (line 127) *)

(** X18: the y columns selected at first are the first five numeric
    columns (all of them when there are fewer); each is an [int64] or
    [float64] column of the frame, and the selection is empty exactly
    when the frame has no numeric column. *)
Theorem default_y_cols_spec (df : DataFrame) :
  default_y_cols (numeric_cols df) = firstn 5 (numeric_cols df) /\
  (List.length (default_y_cols (numeric_cols df)) <= 5)%nat /\
  (default_y_cols (numeric_cols df) = [] <-> numeric_cols df = []) /\
  (forall c, In c (default_y_cols (numeric_cols df)) ->
     exists s, In (c, s) (data df) /\ (dtype s = int64 \/ dtype s = float64)).
Proof.
  assert (E : default_y_cols (numeric_cols df) = firstn 5 (numeric_cols df)).
  { unfold default_y_cols.
    destruct (Nat.le_gt_cases 5 (List.length (numeric_cols df))) as [H|H].
    - now rewrite Nat.min_l.
    - rewrite Nat.min_r, firstn_all by lia. symmetry. apply firstn_all2. lia. }
  rewrite E. split; [reflexivity|]. split; [apply firstn_le_length|]. split.
  - destruct (numeric_cols df); simpl; split; auto; discriminate.
  - intros c Hc. apply In_numeric_cols.
    rewrite <- (firstn_skipn 5 (numeric_cols df)). apply in_or_app. now left.
Qed.

(** ** Shape and content of the frames (lines 180-190) *)

Lemma columns_stacked (df : DataFrame) (ks : list Z) :
  columns (stacked df ks)
  = if mem animation_frame_col (columns df) then columns df
    else columns df ++ [animation_frame_col].
Proof.
  unfold columns, stacked, frame_schema. cbn [data].
  rewrite (map_fst_map
             (fun c s => mkSeries (dtype (frame_column df 0 c s))
                           (flat_map (fun i => values (frame_column df i c s)) ks))).
  apply assoc_set_labels.
Qed.

(** X11: when the starting point is within the rows, the frame handed to
    the renderer has the columns of the source, with the frame column
    added last unless the source already has a column of that name (which
    is then overwritten in place); beyond the rows it has no column at
    all.  So the frame key is a column of that frame exactly when the
    starting point is within the rows. *)
Theorem expand_columns (df : DataFrame) (start_point : Z) :
  NoDup (columns df) ->
  columns (expand df start_point)
  = (if (start_point <=? Z.of_nat (len df))%Z then
       if mem animation_frame_col (columns df) then columns df
       else columns df ++ [animation_frame_col]
     else []) /\
  (In animation_frame_col (columns (expand df start_point))
   <-> (start_point <= Z.of_nat (len df))%Z).
Proof.
  intros Hnd. destruct (Z.leb_spec start_point (Z.of_nat (len df))) as [Hle|Hgt].
  - rewrite expand_in_range, columns_stacked by assumption.
    split; [reflexivity|]. split; [auto|]. intros _.
    destruct (mem animation_frame_col (columns df)) eqn:E.
    + now apply mem_In.
    + apply in_or_app. right. now left.
  - unfold expand. rewrite arange_empty by lia. cbn [fold_left].
    split; [reflexivity|]. split; [contradiction|lia].
Qed.

Lemma len_dfa (df : DataFrame) (i : Z) : len (dfa df i) = len (head i df).
Proof. reflexivity. Qed.

(** No row of the concatenation carries a step number outside the
    steps. *)
Lemma rows_of_frame_outside (df : DataFrame) (ks : list Z) (k : Z) :
  ~ In k ks -> len (rows_of_frame k (stacked df ks)) = 0%nat.
Proof.
  intros Hni. unfold len, rows_of_frame, frame_mask. rewrite getitem_stacked_frame.
  cbn [values index stacked].
  transitivity (List.length
    (flat_map (fun i => if (i =? k)%Z then index (head i df) else []) ks)).
  - f_equal. exact (select_blocks (fun i => index (head i df)) k ks).
  - now rewrite (flat_map_skip (fun i => index (head i df))).
Qed.

(** X12: in the frame handed to the renderer, step [k] shows [k] rows
    when [k] lies between the starting point and the number of rows, and
    no row is tagged with any other value. *)
Theorem frame_sizes (df : DataFrame) (start_point k : Z) :
  aligned df -> (0 <= start_point)%Z ->
  len (rows_of_frame k (expand df start_point))
  = if ((start_point <=? k) && (k <=? Z.of_nat (len df)))%Z then Z.to_nat k else 0%nat.
Proof.
  intros Hal H0. destruct (Z.leb_spec start_point (Z.of_nat (len df))) as [Hle|Hgt].
  - rewrite expand_in_range by (auto; apply Hal).
    destruct (Z.leb_spec start_point k) as [H1|H1];
      destruct (Z.leb_spec k (Z.of_nat (len df))) as [H2|H2]; cbn [andb];
      try (apply rows_of_frame_outside; intros Hin; apply In_arange in Hin; lia).
    rewrite rows_of_frame_stacked;
      [|assumption|apply NoDup_arange|apply In_arange; lia].
    rewrite len_dfa. apply len_head_in_range. lia.
  - unfold expand. rewrite arange_empty by lia. cbn [fold_left].
    destruct (Z.leb_spec start_point k); destruct (Z.leb_spec k (Z.of_nat (len df)));
      cbn [andb]; try reflexivity. lia.
Qed.

Lemma incl_firstn {A : Type} (n : nat) (l : list A) : incl (firstn n l) l.
Proof.
  intros x Hx. rewrite <- (firstn_skipn n l). apply in_or_app. now left.
Qed.

Lemma frame_column_typed (df : DataFrame) (i : Z) (c : string) (s : Series) (x : Cell) :
  Forall (fun cs => well_typed (snd cs)) (data df) ->
  In (c, s) (frame_schema df) ->
  In x (values (frame_column df i c s)) ->
  cell_has_dtype (dtype (frame_column df 0 c s)) x = true.
Proof.
  intros Hty Hin Hx. unfold frame_column in *.
  destruct (String.eqb animation_frame_col c) eqn:E; cbn [dtype values] in *.
  - apply repeat_spec in Hx. now subst.
  - apply In_assoc_set in Hin. destruct Hin as [->|Hin].
    + now rewrite String.eqb_refl in E.
    + rewrite Forall_forall in Hty. specialize (Hty (c, s) Hin).
      unfold well_typed in Hty. rewrite forallb_forall in Hty. cbn [snd] in Hty.
      apply Hty. unfold series_firstn in Hx. cbn [values] in Hx.
      now apply incl_firstn in Hx.
Qed.

Lemma empty_df_wf : wf_df empty_df.
Proof. repeat split; constructor. Qed.

(** X13: the frame handed to the renderer is well formed whenever the
    source is: unique labels, every column as long as the index, every
    cell of the dtype of its column. *)
Theorem expand_keeps_wf (df : DataFrame) (start_point : Z) :
  wf_df df -> wf_df (expand df start_point).
Proof.
  intros [Hal Hty]. rewrite expand_stacked by apply Hal.
  destruct (arange start_point (Z.of_nat (len df) + 1)) as [|k ks];
    [exact empty_df_wf|].
  remember (k :: ks) as steps. clear Heqsteps k ks.
  split; [split|].
  - rewrite columns_stacked.
    pose proof (frame_schema_NoDup df (proj1 Hal)) as H.
    unfold frame_schema in H. now rewrite assoc_set_labels in H.
  - unfold stacked, len. cbn [index data]. apply Forall_map.
    apply Forall_forall. intros [c s] Hin. cbn [fst snd values].
    rewrite !length_flat_map. f_equal. apply map_ext. intros i.
    now apply frame_column_length.
  - unfold stacked. cbn [data]. apply Forall_map.
    apply Forall_forall. intros [c s] Hin. cbn [fst snd].
    unfold well_typed. cbn [dtype values]. apply forallb_forall. intros x Hx.
    apply in_flat_map in Hx. destruct Hx as [i [_ Hx]].
    now apply (frame_column_typed df i c s x).
Qed.

Lemma head_all (df : DataFrame) : aligned df -> head (Z.of_nat (len df)) df = df.
Proof.
  intros [_ Hlen]. unfold head.
  destruct (head_count_in_range (Z.of_nat (len df)) (len df)) as [-> _]; [lia|].
  rewrite Nat2Z.id. destruct df as [idx d]. unfold len in *. cbn [index data] in *.
  f_equal; [apply firstn_all|].
  rewrite <- (map_id d) at 2. apply map_ext_in. intros [c s] Hin. cbn [fst snd].
  rewrite Forall_forall in Hlen. specialize (Hlen (c, s) Hin). cbn [snd] in Hlen.
  unfold series_firstn. rewrite <- Hlen, firstn_all. now rewrite series_eta.
Qed.

(** X16: the last step shows the whole source frame, in its order, with
    the number of rows in the frame column. *)
Theorem last_frame_is_whole_frame (df : DataFrame) (start_point : Z) :
  aligned df -> (start_point <= Z.of_nat (len df))%Z ->
  rows_of_frame (Z.of_nat (len df)) (expand df start_point)
  = assign_scalar df animation_frame_col (Z.of_nat (len df)).
Proof.
  intros Hal Hle. rewrite expand_in_range by (auto; apply Hal).
  rewrite rows_of_frame_stacked;
    [|assumption|apply NoDup_arange|apply In_arange; lia].
  unfold dfa. now rewrite head_all.
Qed.

(** X15: each step shows the rows of the step before, unchanged and in
    the same order, followed by exactly one more row. *)
Theorem frames_grow_by_one (df : DataFrame) (start_point k : Z) :
  aligned df ->
  (1 <= start_point <= k)%Z -> (k < Z.of_nat (len df))%Z ->
  index (rows_of_frame k (expand df start_point))
  = firstn (Z.to_nat k) (index (rows_of_frame (k + 1) (expand df start_point))) /\
  len (rows_of_frame (k + 1) (expand df start_point))
  = S (len (rows_of_frame k (expand df start_point))) /\
  (forall c s, c <> animation_frame_col ->
     getitem (rows_of_frame (k + 1) (expand df start_point)) c = Some s ->
     getitem (rows_of_frame k (expand df start_point)) c
     = Some (series_firstn (Z.to_nat k) s)).
Proof.
  intros Hal Hk Hlt. rewrite expand_in_range by (try apply Hal; lia).
  rewrite !rows_of_frame_stacked;
    try assumption; try apply NoDup_arange; try (apply In_arange; lia).
  destruct (head_count_in_range k (len df)) as [Hc _]; [lia|].
  destruct (head_count_in_range (k + 1) (len df)) as [Hc1 _]; [lia|].
  split; [|split].
  - rewrite !index_dfa, Hc, Hc1, firstn_firstn. f_equal. lia.
  - rewrite !len_dfa, !len_head_in_range by lia. lia.
  - intros c s Hne. rewrite !getitem_dfa_other, Hc, Hc1 by assumption.
    destruct (getitem df c) as [s0|]; cbn [option_map]; try discriminate.
    intros [= <-]. f_equal. unfold series_firstn. cbn [dtype values].
    rewrite firstn_firstn. do 2 f_equal. lia.
Qed.

(** ** The dates of each step (lines 175-188) *)

Section SortExtras.

Variable argsort : list Timestamp -> list nat.


End SortExtras.

(** ** The further properties on the sample frames *)

Lemma expand_columns_witness :
  columns (expand df_dates 2) = ["when"; "note"; "y"; "animation_frame"] /\
  (In animation_frame_col (columns (expand df_dates 2))
   <-> (2 <= Z.of_nat (len df_dates))%Z).
Proof.
  apply (expand_columns df_dates 2). distinct_labels.
Defined.

Lemma frame_sizes_witness :
  len (rows_of_frame 6 (expand (df_rows 7) 5)) = 6%nat /\
  len (rows_of_frame 4 (expand (df_rows 7) 5)) = 0%nat.
Proof.
  assert (Hal : aligned (df_rows 7)) by frame_shape.
  split.
  - apply (frame_sizes (df_rows 7) 5 6 Hal). lia.
  - apply (frame_sizes (df_rows 7) 5 4 Hal). lia.
Defined.

Lemma expand_keeps_wf_witness : wf_df (expand df_text 2).
Proof. apply (expand_keeps_wf df_text 2). exact df_text_wf. Defined.

Lemma last_frame_is_whole_frame_witness :
  rows_of_frame (Z.of_nat (len df_dates)) (expand df_dates 2)
  = assign_scalar df_dates animation_frame_col (Z.of_nat (len df_dates)).
Proof.
  apply (last_frame_is_whole_frame df_dates 2).
  - exact df_dates_aligned.
  - simpl. lia.
Defined.

Lemma frames_grow_by_one_witness :
  index (rows_of_frame 2 (expand df_dates 1))
  = firstn 2 (index (rows_of_frame 3 (expand df_dates 1))) /\
  len (rows_of_frame 3 (expand df_dates 1))
  = S (len (rows_of_frame 2 (expand df_dates 1))).
Proof.
  destruct (frames_grow_by_one df_dates 1 2) as [H1 [H2 _]].
  - exact df_dates_aligned.
  - lia.
  - simpl. lia.
  - split; [exact H1 | exact H2].
Defined.

